(** * MediFlow chat front-end: the session-marker protocol of [app.py]

    A shallow embedding of [chat_fn], [run_agent_sync] and
    [_send_and_get_final_response_async], with the Python values the chat
    history is made of, Python's exceptions as an error type, and the calls
    that leave the module (uuid, asyncio, the agent runtime) as a scripted
    environment that records every call it answers. *)

From Stdlib Require Import String Ascii List ZArith Bool Lia DecimalString.
Import ListNotations.
Open Scope string_scope.
Open Scope Z_scope.

Set Implicit Arguments.

(** ** Exceptions and results *)

(** The classes the code distinguishes: [except RuntimeError] against
    [except Exception].  Every value of [exc] is an instance of Python's
    [Exception]; interpreter signals below it (KeyboardInterrupt, SystemExit)
    are outside the model. *)
Inductive exc_class :=
| RuntimeError | KeyError | IndexError | TypeError | AttributeError
| OSError | OtherException.

Record exc := mkExc {
  exc_cls : exc_class;
  exc_str : string;          (* str(exc) *)
  exc_traceback : string     (* traceback.format_exc() while it is handled *)
}.

Definition is_RuntimeError (e : exc) : bool :=
  match exc_cls e with RuntimeError => true | _ => false end.

Inductive result (A : Type) :=
| Ok (a : A)
| Raise (e : exc).
Arguments Ok {A} a.
Arguments Raise {A} e.

Module Pure.
Definition ret {A} (a : A) : result A := Ok a.
Definition bind {A B} (m : result A) (k : A -> result B) : result B :=
  match m with Ok a => k a | Raise e => Raise e end.
End Pure.

Declare Scope pure_scope.
Delimit Scope pure_scope with pure.
Notation "x <- m ;; k" := (Pure.bind m (fun x => k))
  (at level 61, m at next level, right associativity) : pure_scope.

(** ** Python values *)

#[warnings="-register-all"]
Inductive pyval :=
| PyNone
| PyBool (b : bool)
| PyInt (z : Z)
| PyStr (s : string)
| PyList (l : list pyval)
| PyTuple (l : list pyval)
| PyDict (kv : list (pyval * pyval)).

(** Truth value of an object, as [if x], [x and y] and [not x] test it. *)
Definition truthy (v : pyval) : bool :=
  match v with
  | PyNone => false
  | PyBool b => b
  | PyInt z => negb (z =? 0)
  | PyStr s => negb (String.eqb s "")
  | PyList l | PyTuple l => match l with [] => false | _ => true end
  | PyDict kv => match kv with [] => false | _ => true end
  end.

Definition isinstance_list (v : pyval) : bool :=
  match v with PyList _ => true | _ => false end.

Definition isinstance_list_or_tuple (v : pyval) : bool :=
  match v with PyList _ | PyTuple _ => true | _ => false end.

Definition isinstance_str (v : pyval) : bool :=
  match v with PyStr _ => true | _ => false end.

(** Faults the interpreter raises itself.  The class is what an [except]
    clause tests; the text is Python's [str(exc)] and the traceback is
    abbreviated. *)
Definition interpreter_traceback : string := "Traceback (most recent call last): ...".

Definition type_name (v : pyval) : string :=
  match v with
  | PyNone => "NoneType"
  | PyBool _ => "bool"
  | PyInt _ => "int"
  | PyStr _ => "str"
  | PyList _ => "list"
  | PyTuple _ => "tuple"
  | PyDict _ => "dict"
  end.

Definition type_error (what : string) : exc :=
  mkExc TypeError what interpreter_traceback.
Definition index_error (what : string) : exc :=
  mkExc IndexError what interpreter_traceback.
Definition attribute_error (v : pyval) (name : string) : exc :=
  mkExc AttributeError
        ("'" ++ type_name v ++ "' object has no attribute '" ++ name ++ "'")
        interpreter_traceback.

(** [KeyError(key)] for a string key: its text is [repr(key)], the key
    between quotes when the key has no quote or escape of its own. *)
Definition key_error (key : string) : exc :=
  mkExc KeyError ("'" ++ key ++ "'") interpreter_traceback.

Definition not_subscriptable (v : pyval) : exc :=
  type_error ("'" ++ type_name v ++ "' object is not subscriptable").

(** [len(v)] *)
Definition py_len (v : pyval) : result Z :=
  match v with
  | PyStr s => Ok (Z.of_nat (String.length s))
  | PyList l | PyTuple l => Ok (Z.of_nat (List.length l))
  | PyDict kv => Ok (Z.of_nat (List.length kv))
  | _ => Raise (type_error ("object of type '" ++ type_name v ++ "' has no len()"))
  end.

Definition key_is_int (i : Z) (k : pyval) : bool :=
  match k with
  | PyInt z => z =? i
  | PyBool b => (if b then 1 else 0) =? i
  | _ => false
  end.

(** [v[i]] for a non-negative constant index [i]. *)
Definition py_getitem (v : pyval) (i : nat) : result pyval :=
  match v with
  | PyList l | PyTuple l =>
      match nth_error l i with
      | Some x => Ok x
      | None => Raise (index_error (type_name v ++ " index out of range"))
      end
  | PyStr s =>
      match String.get i s with
      | Some c => Ok (PyStr (String c ""))
      | None => Raise (index_error "string index out of range")
      end
  | PyDict kv =>
      match find (fun p => key_is_int (Z.of_nat i) (fst p)) kv with
      | Some p => Ok (snd p)
      | None => Raise (mkExc KeyError (NilZero.string_of_uint (Nat.to_uint i))
                             interpreter_traceback)
      end
  | _ => Raise (not_subscriptable v)
  end.

(** [v[1:]] *)
Definition py_slice_from1 (v : pyval) : result pyval :=
  match v with
  | PyList l => Ok (PyList (tl l))
  | PyTuple l => Ok (PyTuple (tl l))
  | PyStr s => Ok (PyStr (match s with String _ r => r | "" => "" end))
  | _ => Raise (not_subscriptable v)
  end.

(** [[x, *v]] needs [v] iterable: a dict yields its keys, a string its
    characters. *)
Definition py_iter (v : pyval) : result (list pyval) :=
  match v with
  | PyList l | PyTuple l => Ok l
  | PyDict kv => Ok (map fst kv)
  | PyStr s => Ok (map (fun c => PyStr (String c "")) (list_ascii_of_string s))
  | _ => Raise (type_error ("Value after * must be an iterable, not "
                         ++ type_name v))
  end.

(** The string methods of the decode step, callable on [str] only. *)
Definition py_startswith (v : pyval) (p : string) : result bool :=
  match v with
  | PyStr s => Ok (String.prefix p s)
  | _ => Raise (attribute_error v "startswith")
  end.

(** [s.split(sep, 1)] for a one-character separator: the string itself when
    the separator does not occur, else what is before and what is after its
    first occurrence.  Strings are byte strings here; ":" is ASCII, so the
    split of UTF-8 text falls where Python's falls. *)
Fixpoint split_once (sep : ascii) (s : string) : list string :=
  match s with
  | EmptyString => [EmptyString]
  | String c r =>
      if Ascii.eqb c sep then [EmptyString; r]
      else match split_once sep r with
           | h :: t => String c h :: t
           | [] => [String c EmptyString]
           end
  end.

Definition py_split_once (v : pyval) (sep : ascii) : result (list string) :=
  match v with
  | PyStr s => Ok (split_once sep s)
  | _ => Raise (attribute_error v "split")
  end.

Definition list_getitem {A} (l : list A) (i : nat) : result A :=
  match nth_error l i with
  | Some x => Ok x
  | None => Raise (index_error "list index out of range")
  end.

(** ** The session marker (lines 10-11, 73-85, 112-114) *)

Definition SESSION_ID_PREFIX : string := "session-".
Definition DEFAULT_AGENT_KEY : string := "triage".
Definition MARKER_PREFIX : string := "__SID__:".

(** [(f"__SID__:{session_id}", "")] *)
Definition encode (session_id : string) : pyval :=
  PyTuple [PyStr (MARKER_PREFIX ++ session_id); PyStr ""].

(** Lines 111-114: the marker alone when [history] is [None], else the
    marker followed by the items of [history]. *)
Definition prepend_marker (session_id : string) (history : pyval) : result pyval :=
  match history with
  | PyNone => Ok (PyList [encode session_id])
  | _ => match py_iter history with
         | Ok items => Ok (PyList (encode session_id :: items))
         | Raise e => Raise e
         end
  end.

Section Decode.
Local Open Scope pure_scope.

(** The body of the [try] of lines 76-82, with the two variables it
    assigns, [session_id] and [history], as its value. *)
Definition decode_try (history : pyval) : result (option string * pyval) :=
  c1 <- (if truthy history then
           if isinstance_list history then
             n <- py_len history ;; Pure.ret (0 <? n)
           else Pure.ret false
         else Pure.ret false) ;;
  if (c1 : bool) then
    first <- py_getitem history 0 ;;
    c2 <- (if isinstance_list_or_tuple first then
             n <- py_len first ;;
             if 1 <=? n then
               f0 <- py_getitem first 0 ;; Pure.ret (isinstance_str f0)
             else Pure.ret false
           else Pure.ret false) ;;
    if (c2 : bool) then
      f0 <- py_getitem first 0 ;;
      c3 <- py_startswith f0 MARKER_PREFIX ;;
      if (c3 : bool) then
        f0' <- py_getitem first 0 ;;
        parts <- py_split_once f0' ":" ;;
        sid <- list_getitem parts 1 ;;
        rest <- py_slice_from1 history ;;
        Pure.ret (Some sid, rest)
      else Pure.ret (None, history)
    else Pure.ret (None, history)
  else Pure.ret (None, history).

(** Lines 74-85: [except Exception] resets [session_id]; [history] is
    assigned last in the body, so a handled fault leaves it as received. *)
Definition decode (history : pyval) : option string * pyval :=
  match decode_try history with
  | Ok r => r
  | Raise _ => (None, history)
  end.
End Decode.

(** [not session_id] (line 87): [None] and the empty string are falsy. *)
Definition not_session_id (session_id : option string) : bool :=
  match session_id with
  | None => true
  | Some s => String.eqb s ""
  end.


(** ** Minting a session id (line 89) *)

(** [uuid.uuid4()] is [UUID(bytes=os.urandom(16), version=4)]: the sixteen
    random bytes read as an integer, with the variant and version bits
    overwritten. *)
Definition uuid4_int (urandom : Z) : Z :=
  let i := urandom mod 2 ^ 128 in
  let i := Z.land i (Z.lnot (Z.shiftl 0xc000 48)) in
  let i := Z.lor i (Z.shiftl 0x8000 48) in
  let i := Z.land i (Z.lnot (Z.shiftl 0xf000 64)) in
  Z.lor i (Z.shiftl 4 76).

Definition hex_digits : list ascii := list_ascii_of_string "0123456789abcdef".

Definition hex_digit (d : Z) : ascii := nth (Z.to_nat d) hex_digits "0"%char.

(** ['%032x' % i], for [0 <= i < 2^128]: thirty-two digits, the most
    significant first. *)
Definition hex32 (i : Z) : list ascii :=
  map (fun k => hex_digit (Z.shiftr i (4 * Z.of_nat k) mod 16)) (rev (seq 0 32)).

(** [l[a:b]] *)
Definition slice {A} (a b : nat) (l : list A) : list A :=
  firstn (b - a) (skipn a l).

(** [str(UUID)]: the groups hex[:8], hex[8:12], hex[12:16], hex[16:20],
    hex[20:] joined by hyphens. *)
Definition uuid_format (hex : list ascii) : string :=
  let dash := ["-"%char] in
  string_of_list_ascii
    (slice 0 8 hex ++ dash ++ slice 8 12 hex ++ dash ++ slice 12 16 hex
       ++ dash ++ slice 16 20 hex ++ dash ++ skipn 20 hex).

Definition uuid_str (i : Z) : string := uuid_format (hex32 i).

Definition mint_session_id (urandom : Z) : string :=
  SESSION_ID_PREFIX ++ uuid_str (uuid4_int urandom).


(** ** The world outside the module *)

(** Every call that leaves [app.py], with the arguments the claims look at. *)
Inductive call :=
| call_uuid4
| call_make_runner_for (agent : string)
| call_new_event_loop
| call_run_until_complete
| call_create_session (app_name user_id session_id : string)
| call_shutdown_asyncgens
| call_loop_close
| call_asyncio_run
| call_asyncio_run_teardown
| call_run_async (agent user_id session_id message : string).

(** A trace lists the calls made so far, the oldest first. *)
Definition trace := list call.

(** Modelled from the spec: the events of the agent runtime
    ([google.adk], not under src/).  Each event exposes
    [is_final_response()] and an optional [content], whose optional [parts]
    carry an optional [text]. *)
Record Part := mkPart { text : option string }.
Record Content := mkContent { parts : option (list Part) }.
Record Event := mkEvent {
  is_final_response : bool;
  content : option Content
}.

(** What [runner.run_async] yields: events, then the end of the stream or a
    fault. *)
Record stream := mkStream {
  stream_events : list Event;
  stream_fault : option exc
}.

(** The environment answers each call from the calls made before it, so any
    deterministic behaviour of the libraries and of the runtime is one of its
    values.  [AGENTS], [APP_NAME] and [USER_ID] are the names imported from
    [agent.py]. *)
Record env := mkEnv {
  AGENTS : list (string * string);
  APP_NAME : string;
  USER_ID : string;
  urandom : trace -> Z;
  fault : trace -> call -> option exc;
  run_async : trace -> stream
}.

(** ** Effectful code: a trace-passing error monad *)

Definition M (A : Type) : Type := trace -> result A * trace.

Definition ret {A} (a : A) : M A := fun t => (Ok a, t).

Definition raise {A} (e : exc) : M A := fun t => (Raise e, t).

Definition bind {A B} (m : M A) (k : A -> M B) : M B :=
  fun t => match m t with
           | (Ok a, t') => k a t'
           | (Raise e, t') => (Raise e, t')
           end.

Definition lift {A} (r : result A) : M A := fun t => (r, t).

(** [try: m  except A: ...  except B: ...]: [handlers e] is the body of
    the first clause that matches [e], if one does.  A fault of a handler
    is not offered to the clauses after it. *)
Definition try_except {A} (m : M A) (handlers : exc -> option (M A)) : M A :=
  fun t => match m t with
           | (Ok a, t') => (Ok a, t')
           | (Raise e, t') =>
               match handlers e with
               | Some h => h t'
               | None => (Raise e, t')
               end
           end.

(** [try: m  finally: fin]: the outcome of [m] stands unless [fin] raises. *)
Definition try_finally {A} (m : M A) (fin : M unit) : M A :=
  fun t => match m t with
           | (r, t') =>
               match fin t' with
               | (Ok _, t'') => (r, t'')
               | (Raise e, t'') => (Raise e, t'')
               end
           end.

Declare Scope eff_scope.
Delimit Scope eff_scope with eff.
Notation "x <- m ;; k" := (bind m (fun x => k))
  (at level 61, m at next level, right associativity) : eff_scope.
Notation "m ;;; k" := (bind m (fun _ => k))
  (at level 61, right associativity) : eff_scope.

(** [except Exception: pass] *)
Definition except_Exception_pass (m : M unit) : M unit :=
  try_except m (fun _ => Some (ret tt)).

Definition newline : string := String (ascii_of_nat 10) "".

(** What lines 74-117 leave in the local variables of [chat_fn]. *)
Record resolved := mkResolved {
  session_id_of : string;
  history_of : pyval;
  history_to_return : pyval
}.

Section App.
Variable E : env.
Local Open Scope eff_scope.

(** A call that returns nothing the code looks at: it is recorded, and
    raises when the environment says so. *)
Definition ext (c : call) : M unit :=
  fun t => match fault E t c with
           | Some e => (Raise e, (t ++ [c])%list)
           | None => (Ok tt, (t ++ [c])%list)
           end.

(** [AGENTS[agent_key]] *)
Definition AGENTS_getitem (agent_key : string) : M string :=
  match find (fun p => String.eqb (fst p) agent_key) (AGENTS E) with
  | Some p => ret (snd p)
  | None => raise (key_error agent_key)
  end.

(** [make_runner_for(AGENTS[agent_key])]; the runner is known by its
    agent. *)
Definition make_runner_for (agent_key : string) : M string :=
  agent <- AGENTS_getitem agent_key ;;
  ext (call_make_runner_for agent) ;;;
  ret agent.

(** [loop.run_until_complete(body)] *)
Definition run_until_complete {A} (body : M A) : M A :=
  ext call_run_until_complete ;;; body.

(** The [finally] blocks of lines 22-26, 54-58 and 98-102. *)
Definition close_loop : M unit :=
  except_Exception_pass (run_until_complete (ext call_shutdown_asyncgens)) ;;;
  ext call_loop_close.

(** [asyncio.run(body)]: refuses to start inside a running loop, else runs
    [body] on a loop of its own and closes it. *)
Definition asyncio_run {A} (body : M A) : M A :=
  ext call_asyncio_run ;;;
  try_finally body (ext call_asyncio_run_teardown).

(** *** [_send_and_get_final_response_async] (lines 32-42) *)

(** Line 38: a final event whose [content] is there and whose [parts] is a
    non-empty list. *)
Definition qualifies (ev : Event) : bool :=
  is_final_response ev &&
  match content ev with
  | Some c => match parts c with
              | Some (_ :: _) => true
              | _ => false
              end
  | None => false
  end.

(** [event.content.parts[0].text], read once line 38 has passed. *)
Definition first_part_text (ev : Event) : pyval :=
  match content ev with
  | Some (mkContent (Some (mkPart (Some s) :: _))) => PyStr s
  | _ => PyNone
  end.

Definition scan_step (final_response : pyval) (ev : Event) : pyval :=
  if qualifies ev then first_part_text ev else final_response.

Definition agent_runtime_error (e : exc) : string :=
  "[Agent runtime error] " ++ exc_str e ++ newline ++ exc_traceback e.

(** Lines 35-42: the loop over the stream inside its [try]. *)
Definition scan (s : stream) : pyval :=
  let final_response :=
    fold_left scan_step (stream_events s) (PyStr "(no response)") in
  match stream_fault s with
  | Some e => PyStr (agent_runtime_error e)
  | None => final_response
  end.

Definition _send_and_get_final_response_async
    (message agent_key session_id : string) : M pyval :=
  runner <- make_runner_for agent_key ;;
  fun t =>
    let t' := (t ++ [call_run_async runner (USER_ID E) session_id message])%list in
    (Ok (scan (run_async E t')), t').

(** *** [run_agent_sync] (lines 45-60) *)

Definition error_invoking_agent (e : exc) : string :=
  "[Error invoking agent] " ++ exc_str e ++ newline ++ exc_traceback e.

Definition run_agent_sync_fallback
    (message agent_key session_id : string) : M pyval :=
  ext call_new_event_loop ;;;
  try_finally
    (run_until_complete
       (_send_and_get_final_response_async message agent_key session_id))
    close_loop.

Definition run_agent_sync (message agent_key session_id : string) : M pyval :=
  try_except
    (asyncio_run
       (_send_and_get_final_response_async message agent_key session_id))
    (fun e =>
       if is_RuntimeError e
       then Some (run_agent_sync_fallback message agent_key session_id)
       else Some (ret (PyStr (error_invoking_agent e)))).

(** *** [chat_fn] (lines 63-127) *)

(** Lines 92-105: best-effort registration of a minted id. *)
Definition register_session_try (agent_choice session_id : string) : M unit :=
  runner <- make_runner_for agent_choice ;;
  ext call_new_event_loop ;;;
  try_finally
    (run_until_complete
       (ext (call_create_session (APP_NAME E) (USER_ID E) session_id)))
    close_loop.

Definition register_session (agent_choice session_id : string) : M unit :=
  except_Exception_pass (register_session_try agent_choice session_id).

(** [uuid.uuid4()] *)
Definition uuid4 : M Z :=
  fun t => let t' := (t ++ [call_uuid4])%list in (Ok (uuid4_int (urandom E t')), t').

Definition resolve (history : pyval) (agent_choice : string) : M resolved :=
  let '(session_id, history) := decode history in
  if not_session_id session_id then
    u <- uuid4 ;;
    let session_id := SESSION_ID_PREFIX ++ uuid_str u in
    register_session agent_choice session_id ;;;
    history_to_return <- lift (prepend_marker session_id history) ;;
    ret (mkResolved session_id history history_to_return)
  else
    ret (mkResolved (match session_id with Some s => s | None => "" end)
                    history history).

(** The function returns [response] alone (line 127). *)
Definition chat_fn (message : string) (history : pyval)
    (agent_choice : string) : M pyval :=
  r <- resolve history agent_choice ;;
  response <- run_agent_sync message agent_choice (session_id_of r) ;;
  ret response.
End App.

(** ** Environments used as concrete inputs *)

Definition no_fault : trace -> call -> option exc := fun _ _ => None.

Definition quiet_env : env :=
  mkEnv [("triage", "triage_agent")] "mediflow" "visitor"
        (fun _ => 0) no_fault (fun _ => mkStream [] None).

(** * Properties of the decode step *)

(** The shape line 78-79 tests on an entry: a list or tuple whose first
    element is a string that starts with the marker prefix. *)
Definition marker_like (entry : pyval) : bool :=
  match entry with
  | PyList (PyStr s :: _) | PyTuple (PyStr s :: _) => String.prefix MARKER_PREFIX s
  | _ => false
  end.

Definition carries_marker (history : pyval) : bool :=
  match history with
  | PyList (first :: _) => marker_like first
  | _ => false
  end.

(** The marker shape of the data model, in the spec's words: a pair whose
    first field is the prefix followed by a session id and whose second field
    is the empty string. *)
Definition spec_marker_shape (entry : pyval) : bool :=
  match entry with
  | PyList [PyStr s; PyStr e] | PyTuple [PyStr s; PyStr e] =>
      String.prefix MARKER_PREFIX s
      && negb (String.eqb s MARKER_PREFIX)
      && String.eqb e ""
  | _ => false
  end.

Definition spec_carries_marker (history : pyval) : bool :=
  match history with
  | PyList (first :: _) | PyTuple (first :: _) => spec_marker_shape first
  | _ => false
  end.

(** The last event of a stream that passes line 38, if any. *)
Definition last_qualifying (events : list Event) : option Event :=
  find qualifies (rev events).

(** The shape of [str(UUID)]: 8-4-4-4-12 lower-case hexadecimal digits. *)
Definition is_hex_char (c : ascii) : bool := existsb (Ascii.eqb c) hex_digits.

Definition is_dash (c : ascii) : bool := Ascii.eqb c "-".

Definition uuid_shape : list (ascii -> bool) :=
  (repeat is_hex_char 8 ++ [is_dash] ++ repeat is_hex_char 4 ++ [is_dash]
   ++ repeat is_hex_char 4 ++ [is_dash] ++ repeat is_hex_char 4 ++ [is_dash]
   ++ repeat is_hex_char 12)%list.

Fixpoint matches_shape (shape : list (ascii -> bool)) (s : string) : bool :=
  match shape, s with
  | [], EmptyString => true
  | p :: shape', String c s' => p c && matches_shape shape' s'
  | _, _ => false
  end.

Definition is_uuid_string (s : string) : bool := matches_shape uuid_shape s.

(** A final event whose only part carries [t]. *)
Definition final_event (t : option string) : Event :=
  mkEvent true (Some (mkContent (Some [mkPart t]))).

(** The runtime answers with one final event whose part carries no text (a
    function response, inline data). *)
Definition textless_env : env :=
  mkEnv [("triage", "triage_agent")] "mediflow" "visitor"
        (fun _ => 0) no_fault (fun _ => mkStream [final_event None] None).

(** The textless final event is followed by an event that is not final and
    carries text. *)
Definition trailing_partial_env : env :=
  mkEnv [("triage", "triage_agent")] "mediflow" "visitor"
        (fun _ => 0) no_fault
        (fun _ => mkStream
                    [final_event None;
                     mkEvent false (Some (mkContent (Some [mkPart (Some "partial")])))]
                    None).

Definition connection_lost : exc :=
  mkExc OSError "connection lost" "Traceback (most recent call last): ...".

(** The runtime yields its final answer and then fails. *)
Definition late_fault_env : env :=
  mkEnv [("triage", "triage_agent")] "mediflow" "visitor"
        (fun _ => 0) no_fault
        (fun _ => mkStream [final_event (Some "Take rest.")] (Some connection_lost)).

Definition loop_running : exc :=
  mkExc RuntimeError "asyncio.run() cannot be called from a running event loop"
        "Traceback (most recent call last): ...".

Definition another_loop_running : exc :=
  mkExc RuntimeError "Cannot run the event loop while another loop is running"
        "Traceback (most recent call last): ...".

(** The caller's thread already runs an event loop: [asyncio.run] refuses to
    start, and so does [run_until_complete] on any other loop. *)
Definition running_loop_env : env :=
  mkEnv [("triage", "triage_agent")] "mediflow" "visitor"
        (fun _ => 0)
        (fun _ c => match c with
                    | call_asyncio_run => Some loop_running
                    | call_run_until_complete => Some another_loop_running
                    | _ => None
                    end)
        (fun _ => mkStream [final_event (Some "Take rest.")] None).

Definition already_exists : exc :=
  mkExc OtherException "Session already exists" "Traceback (most recent call last): ...".

(** The session store refuses every [create_session]. *)
Definition store_down_env : env :=
  mkEnv [("triage", "triage_agent")] "mediflow" "visitor"
        (fun _ => 0)
        (fun _ c => match c with
                    | call_create_session _ _ _ => Some already_exists
                    | _ => None
                    end)
        (fun _ => mkStream [final_event (Some "Take rest.")] None).

(** Calls that register a session with the runtime's store. *)
Definition is_registration (c : call) : bool :=
  match c with
  | call_create_session _ _ _ => true
  | _ => false
  end.

(** [m] extends the trace, and only by calls that satisfy [P]. *)
Definition adds {A} (P : call -> bool) (m : M A) : Prop :=
  forall t, exists d, snd (m t) = (t ++ d)%list /\ forallb P d = true.

Definition not_registration (c : call) : bool := negb (is_registration c).

(** ** The startup session (lines 13-29) *)

Section Startup.
Variable E : env.
Local Open Scope eff_scope.

(** Lines 14-26: the session is created on a loop of its own, which the
    [finally] closes; no [except] surrounds the creation. *)
Definition ensure_session_for (agent_key session_id : string) : M unit :=
  runner <- make_runner_for E agent_key ;;
  ext E call_new_event_loop ;;;
  try_finally
    (run_until_complete E
       (ext E (call_create_session (APP_NAME E) (USER_ID E) session_id)))
    (close_loop E).

(** Line 29: the call at import, with the defaults of line 14. *)
Definition module_startup : M unit :=
  ensure_session_for DEFAULT_AGENT_KEY "global-startup".
End Startup.

(** ** Vocabulary for the properties of traces and faults *)

(** Calls that hand a message to the agent runtime. *)
Definition is_dispatch (c : call) : bool :=
  match c with
  | call_run_async _ _ _ _ => true
  | _ => false
  end.

Definition dispatches (d : trace) : nat := List.length (filter is_dispatch d).

(** [m] extends the trace by at most [n] dispatches. *)
Definition sends_at_most {A} (n : nat) (m : M A) : Prop :=
  forall t, exists d, snd (m t) = (t ++ d)%list /\ (dispatches d <= n)%nat.

(** A dispatch of [message] to session [session_id] for the module's user;
    any other call passes. *)
Definition dispatch_of (E : env) (session_id message : string) (c : call) : bool :=
  match c with
  | call_run_async _ user_id sid msg =>
      String.eqb user_id (USER_ID E) && String.eqb sid session_id
      && String.eqb msg message
  | _ => true
  end.




(** No call of the environment fails. *)
Definition faultless (E : env) : Prop := forall t c, fault E t c = None.

Definition loop_closed : exc :=
  mkExc RuntimeError "Event loop is closed" "Traceback (most recent call last): ...".

(** [asyncio.run] runs the coroutine and then fails while it tears its loop
    down. *)
Definition teardown_fault_env : env :=
  mkEnv [("triage", "triage_agent")] "mediflow" "visitor"
        (fun _ => 0)
        (fun _ c => match c with
                    | call_asyncio_run_teardown => Some loop_closed
                    | _ => None
                    end)
        (fun _ => mkStream [final_event (Some "Take rest.")] None).

(** ** Reading a uuid back from its digits *)

(** The value of a hexadecimal digit, 0 for any other character. *)
Definition hex_value (c : ascii) : Z :=
  match find (fun p => Ascii.eqb (snd p) c)
             (combine (map Z.of_nat (seq 0 16)) hex_digits) with
  | Some p => fst p
  | None => 0
  end.

(** The [k]-th hexadecimal digit of [i], counted from the least significant,
    as [hex32] extracts it. *)
Definition nibble (i : Z) (k : nat) : Z := Z.shiftr i (4 * Z.of_nat k) mod 16.

Fixpoint from_nibbles (i : Z) (n : nat) : Z :=
  match n with
  | O => 0
  | S k => from_nibbles i k + 16 ^ Z.of_nat k * nibble i k
  end.

(** * Evaluations on concrete inputs *)

Example decode_scenario :
  decode (PyList [PyTuple [PyStr "__SID__:session-abc123"; PyStr ""]])
  = (Some "session-abc123", PyList []).
Proof. reflexivity. Qed.

Example mint_zero :
  mint_session_id 0 = "session-00000000-0000-4000-8000-000000000000".
Proof. reflexivity. Qed.

Example mint_ones :
  mint_session_id (2 ^ 128 - 1) = "session-ffffffff-ffff-4fff-bfff-ffffffffffff".
Proof. reflexivity. Qed.

Lemma prefix_inv (p s : string) :
  String.prefix p s = true -> exists r, s = p ++ r.
Proof.
  revert s; induction p as [|a p IH]; intros s H.
  - now exists s.
  - destruct s as [|b s]; simpl in H; [discriminate|].
    destruct (ascii_dec a b) as [->|]; [|discriminate].
    destruct (IH _ H) as [r ->]. now exists r.
Qed.

Lemma prefix_app (p r : string) : String.prefix p (p ++ r) = true.
Proof.
  induction p as [|a p IH]; simpl.
  - now destruct r.
  - destruct (ascii_dec a a); [assumption | congruence].
Qed.

Lemma split_once_marker (sid : string) :
  split_once ":" (MARKER_PREFIX ++ sid) = ["__SID__"; sid].
Proof. reflexivity. Qed.

Lemma of_nat_length_pos {A} (x : A) (l : list A) :
  (0 <? Z.of_nat (List.length (x :: l))) = true.
Proof. apply Z.ltb_lt. simpl List.length. lia. Qed.

Lemma of_nat_length_ge1 {A} (x : A) (l : list A) :
  (1 <=? Z.of_nat (List.length (x :: l))) = true.
Proof. apply Z.leb_le. simpl List.length. lia. Qed.

(** A marker-like first entry is decoded and stripped, whatever follows its
    first element. *)
Lemma decode_try_marker_tuple (sid : string) (others rest : list pyval) :
  decode_try (PyList (PyTuple (PyStr (MARKER_PREFIX ++ sid) :: others) :: rest))
  = Ok (Some sid, PyList rest).
Proof.
  unfold decode_try.
  cbn [truthy isinstance_list py_len py_getitem nth_error Pure.bind Pure.ret
       isinstance_list_or_tuple isinstance_str py_startswith].
  rewrite !of_nat_length_pos, !of_nat_length_ge1, prefix_app.
  cbn [py_split_once Pure.bind]. rewrite split_once_marker. reflexivity.
Qed.

Lemma decode_try_marker_list (sid : string) (others rest : list pyval) :
  decode_try (PyList (PyList (PyStr (MARKER_PREFIX ++ sid) :: others) :: rest))
  = Ok (Some sid, PyList rest).
Proof.
  unfold decode_try.
  cbn [truthy isinstance_list py_len py_getitem nth_error Pure.bind Pure.ret
       isinstance_list_or_tuple isinstance_str py_startswith].
  rewrite !of_nat_length_pos, !of_nat_length_ge1, prefix_app.
  cbn [py_split_once Pure.bind]. rewrite split_once_marker. reflexivity.
Qed.

(** Without a marker-like first entry the body ends normally and assigns
    nothing. *)
Lemma decode_try_absent (history : pyval) :
  carries_marker history = false -> decode_try history = Ok (None, history).
Proof.
  intros H. unfold decode_try.
  destruct history as [| b | z | s | l | l | kv]; cbn [truthy isinstance_list].
  - reflexivity.
  - now destruct b.
  - now destruct (negb (z =? 0)).
  - now destruct (negb (s =? "")%string).
  - destruct l as [|first rest]; [reflexivity|].
    cbn [py_len Pure.bind Pure.ret]. rewrite of_nat_length_pos.
    cbn [py_getitem nth_error Pure.bind]. cbn [carries_marker] in H.
    destruct first as [| b | z | s | l | l | kv];
      cbn [isinstance_list_or_tuple Pure.bind Pure.ret]; try reflexivity.
    + destruct l as [|f0 others]; [reflexivity|].
      cbn [py_len Pure.bind Pure.ret]. rewrite of_nat_length_ge1.
      cbn [py_getitem nth_error Pure.bind Pure.ret].
      destruct f0; cbn [isinstance_str Pure.bind]; try reflexivity.
      cbn [py_startswith Pure.bind]. cbn [marker_like] in H. now rewrite H.
    + destruct l as [|f0 others]; [reflexivity|].
      cbn [py_len Pure.bind Pure.ret]. rewrite of_nat_length_ge1.
      cbn [py_getitem nth_error Pure.bind Pure.ret].
      destruct f0; cbn [isinstance_str Pure.bind]; try reflexivity.
      cbn [py_startswith Pure.bind]. cbn [marker_like] in H. now rewrite H.
  - now destruct l.
  - now destruct kv.
Qed.

Lemma carries_marker_inv (history : pyval) :
  carries_marker history = true ->
  exists sid others rest,
    history = PyList (PyTuple (PyStr (MARKER_PREFIX ++ sid) :: others) :: rest)
    \/ history = PyList (PyList (PyStr (MARKER_PREFIX ++ sid) :: others) :: rest).
Proof.
  intros H.
  destruct history as [| | | | [|first rest] | |]; try discriminate.
  cbn [carries_marker] in H.
  destruct first as [| | | | [|[| | | s | | |] others] | [|[| | | s | | |] others] |];
    try discriminate; cbn [marker_like] in H;
    destruct (prefix_inv _ _ H) as [sid ->]; exists sid, others, rest; auto.
Qed.

(** The decode step never takes its [except] branch. *)
Lemma decode_try_total (history : pyval) :
  exists r, decode_try history = Ok r.
Proof.
  destruct (carries_marker history) eqn:Hm.
  - destruct (carries_marker_inv _ Hm) as (sid & others & rest & [-> | ->]);
      eexists; [apply decode_try_marker_tuple | apply decode_try_marker_list].
  - eexists. now apply decode_try_absent.
Qed.

Lemma decode_absent (history : pyval) :
  carries_marker history = false -> decode history = (None, history).
Proof. intros H. unfold decode. now rewrite decode_try_absent. Qed.

Lemma decode_marker_tuple (sid : string) (others rest : list pyval) :
  decode (PyList (PyTuple (PyStr (MARKER_PREFIX ++ sid) :: others) :: rest))
  = (Some sid, PyList rest).
Proof. unfold decode. now rewrite decode_try_marker_tuple. Qed.

Lemma decode_marker_list (sid : string) (others rest : list pyval) :
  decode (PyList (PyList (PyStr (MARKER_PREFIX ++ sid) :: others) :: rest))
  = (Some sid, PyList rest).
Proof. unfold decode. now rewrite decode_try_marker_list. Qed.

(** What [decode] leaves in [history]: the input, or the input list without
    its first entry. *)
Lemma decode_history (history : pyval) :
  snd (decode history) = history
  \/ exists first rest, history = PyList (first :: rest)
                        /\ snd (decode history) = PyList rest.
Proof.
  destruct (carries_marker history) eqn:Hm.
  - right. destruct (carries_marker_inv _ Hm) as (sid & others & rest & [-> | ->]);
      [rewrite decode_marker_tuple | rewrite decode_marker_list];
      do 2 eexists; split; reflexivity.
  - left. now rewrite decode_absent.
Qed.

(** * The codec claims *)

(** C1 (marker round-trip): for every non-empty session id [sid] and every
    history [H], decoding the history that starts with [encode sid] and goes
    on with [H] yields [sid] and [H] unchanged, and [sid] passes the
    emptiness test of line 87, so it is the id the turn uses. *)
Theorem marker_round_trip (sid : string) (H : list pyval) :
  sid <> "" ->
  decode (PyList (encode sid :: H)) = (Some sid, PyList H)
  /\ not_session_id (fst (decode (PyList (encode sid :: H)))) = false.
Proof.
  intros Hsid. unfold encode. rewrite decode_marker_tuple. split; [reflexivity|].
  cbn [fst not_session_id]. now apply String.eqb_neq.
Qed.

Lemma marker_round_trip_witness :
  "session-abc123" <> ""
  /\ decode (PyList [encode "session-abc123"; PyTuple [PyStr "Hi"; PyStr "Hello!"]])
     = (Some "session-abc123", PyList [PyTuple [PyStr "Hi"; PyStr "Hello!"]]).
Proof.
  split; [discriminate|].
  apply (marker_round_trip (sid := "session-abc123")
           [PyTuple [PyStr "Hi"; PyStr "Hello!"]]).
  discriminate.
Defined.

(** C6, as stated, fails: a first entry whose second field is not empty
    does not have the marker shape of the data model, yet it is decoded and
    stripped. *)
Lemma marker_absence_as_stated_fails :
  let H := PyList [PyTuple [PyStr "__SID__:abc"; PyStr "hello"]] in
  spec_carries_marker H = false
  /\ decode H = (Some "abc", PyList [])
  /\ decode H <> (None, H).
Proof.
  split; [reflexivity|]. split; [reflexivity|].
  intros Heq. vm_compute in Heq. discriminate Heq.
Qed.

(** C6 (marker absence, amended): for every history, empty and [None]
    included, that is not a list whose first entry is a list or tuple whose
    first element is a string starting with the marker prefix, decode returns
    no session id and the history unchanged. *)
Theorem marker_absence_unchanged (H : pyval) :
  carries_marker H = false -> decode H = (None, H).
Proof. apply decode_absent. Qed.

Lemma marker_absence_unchanged_witness :
  decode PyNone = (None, PyNone)
  /\ decode (PyList []) = (None, PyList [])
  /\ decode (PyList [PyTuple [PyStr "Hi"; PyStr "Hello!"]])
     = (None, PyList [PyTuple [PyStr "Hi"; PyStr "Hello!"]]).
Proof.
  split; [|split]; apply marker_absence_unchanged; reflexivity.
Defined.

(** C10 (lenient marker detection): a first entry that is a list or a tuple
    with at least one element, the first a string starting with the marker
    prefix, is taken for a marker whatever its other elements are (none, a
    non-empty second field, more than two): the entry is stripped and what
    follows the prefix, later colons included, is the session id. *)
Theorem lenient_marker_detection (sid : string) (others rest : list pyval) :
  decode (PyList (PyTuple (PyStr (MARKER_PREFIX ++ sid) :: others) :: rest))
  = (Some sid, PyList rest)
  /\ decode (PyList (PyList (PyStr (MARKER_PREFIX ++ sid) :: others) :: rest))
     = (Some sid, PyList rest)
  /\ split_once ":" (MARKER_PREFIX ++ sid) = ["__SID__"; sid].
Proof.
  split; [apply decode_marker_tuple|].
  split; [apply decode_marker_list | apply split_once_marker].
Qed.

Example lenient_one_element :
  decode (PyList [PyList [PyStr "__SID__:a:b"]; PyInt 7])
  = (Some "a:b", PyList [PyInt 7]).
Proof. reflexivity. Qed.

(** * The minted id *)

Lemma hex_digit_is_hex (d : Z) : is_hex_char (hex_digit d) = true.
Proof.
  unfold hex_digit. generalize (Z.to_nat d) as n. intros n.
  do 16 (destruct n as [|n]; [reflexivity|]).
  now destruct n.
Qed.

Lemma uuid_format_shape (f : nat -> ascii) :
  (forall k, is_hex_char (f k) = true) ->
  is_uuid_string (uuid_format (map f (rev (seq 0 32)))) = true.
Proof.
  intros Hf. unfold is_uuid_string, uuid_format.
  cbn -[is_hex_char]. rewrite !Hf. reflexivity.
Qed.

Lemma uuid_str_shape (i : Z) : is_uuid_string (uuid_str i) = true.
Proof.
  unfold uuid_str, hex32. apply uuid_format_shape.
  intros k. apply hex_digit_is_hex.
Qed.

Lemma mint_nonempty (r : Z) : mint_session_id r <> "".
Proof. unfold mint_session_id. cbn [SESSION_ID_PREFIX append]. discriminate. Qed.

Lemma mint_truthy (r : Z) : not_session_id (Some (mint_session_id r)) = false.
Proof. cbn [not_session_id]. apply String.eqb_neq, mint_nonempty. Qed.

(** C9 (shape of a minted id): the id minted at line 89 is ["session-"]
    followed by a string of the form 8-4-4-4-12 in hexadecimal digits; it is
    not empty, does not start with the marker prefix, and the test of line 87
    takes it for a present session. *)
Theorem minted_id_shape (r : Z) :
  mint_session_id r = "session-" ++ uuid_str (uuid4_int r)
  /\ is_uuid_string (uuid_str (uuid4_int r)) = true
  /\ mint_session_id r <> ""
  /\ String.prefix MARKER_PREFIX (mint_session_id r) = false
  /\ not_session_id (Some (mint_session_id r)) = false.
Proof.
  split; [reflexivity|].
  split; [apply uuid_str_shape|].
  split; [apply mint_nonempty|].
  split; [reflexivity | apply mint_truthy].
Qed.

(** * Effects: what a computation adds to the trace *)

Section Adds.
Variable P : call -> bool.

Lemma adds_ret {A} (a : A) : adds P (ret a).
Proof. intros t. exists []. now rewrite app_nil_r. Qed.

Lemma adds_raise {A} (e : exc) : adds P (@raise A e).
Proof. intros t. exists []. now rewrite app_nil_r. Qed.

Lemma adds_bind {A B} (m : M A) (k : A -> M B) :
  adds P m -> (forall a, adds P (k a)) -> adds P (bind m k).
Proof.
  intros Hm Hk t. unfold bind.
  destruct (Hm t) as (d & Hd & Pd). destruct (m t) as [[a|e] t1]; cbn [snd] in *.
  - destruct (Hk a t1) as (d' & Hd' & Pd'). exists (d ++ d')%list.
    rewrite Hd', Hd, app_assoc, forallb_app, Pd, Pd'. now split.
  - now exists d.
Qed.

Lemma adds_try_except {A} (m : M A) (handlers : exc -> option (M A)) :
  adds P m -> (forall e h, handlers e = Some h -> adds P h) ->
  adds P (try_except m handlers).
Proof.
  intros Hm Hh t. unfold try_except.
  destruct (Hm t) as (d & Hd & Pd). destruct (m t) as [[a|e] t1]; cbn [snd] in *.
  - now exists d.
  - destruct (handlers e) as [h|] eqn:He; [|now exists d].
    destruct (Hh e h He t1) as (d' & Hd' & Pd'). exists (d ++ d')%list.
    rewrite Hd', Hd, app_assoc, forallb_app, Pd, Pd'. now split.
Qed.

Lemma adds_try_finally {A} (m : M A) (fin : M unit) :
  adds P m -> adds P fin -> adds P (try_finally m fin).
Proof.
  intros Hm Hf t. unfold try_finally.
  destruct (Hm t) as (d & Hd & Pd). destruct (m t) as [r t1]; cbn [snd] in *.
  destruct (Hf t1) as (d' & Hd' & Pd').
  exists (d ++ d')%list. rewrite app_assoc, forallb_app, Pd, Pd', <- Hd.
  split; [|reflexivity].
  now destruct (fin t1) as [[u|e] t2]; cbn [snd] in *.
Qed.

Lemma adds_ext (E : env) (c : call) : P c = true -> adds P (ext E c).
Proof.
  intros Pc t. exists [c]. unfold ext.
  split; [now destruct (fault E t c) | cbn; now rewrite Pc].
Qed.
End Adds.

(** Neither the dispatch nor the bridge registers a session. *)
Lemma make_runner_for_no_registration (E : env) (agent_key : string) :
  adds not_registration (make_runner_for E agent_key).
Proof.
  unfold make_runner_for. apply adds_bind.
  - unfold AGENTS_getitem.
    destruct (find _ (AGENTS E)); [apply adds_ret | apply adds_raise].
  - intros agent. apply adds_bind; [now apply adds_ext | intros; apply adds_ret].
Qed.

Lemma send_no_registration (E : env) (message agent_key session_id : string) :
  adds not_registration
       (_send_and_get_final_response_async E message agent_key session_id).
Proof.
  unfold _send_and_get_final_response_async. apply adds_bind.
  - apply make_runner_for_no_registration.
  - intros runner t. now eexists [_].
Qed.

Lemma close_loop_no_registration (E : env) : adds not_registration (close_loop E).
Proof.
  unfold close_loop, except_Exception_pass, run_until_complete.
  apply adds_bind; [|intros; now apply adds_ext].
  apply adds_try_except.
  - apply adds_bind; [now apply adds_ext | intros; now apply adds_ext].
  - intros e h [= <-]. apply adds_ret.
Qed.

Lemma run_agent_sync_no_registration
    (E : env) (message agent_key session_id : string) :
  adds not_registration (run_agent_sync E message agent_key session_id).
Proof.
  unfold run_agent_sync. apply adds_try_except.
  - unfold asyncio_run. apply adds_bind; [now apply adds_ext|]. intros _.
    apply adds_try_finally; [apply send_no_registration | now apply adds_ext].
  - intros e h He. destruct (is_RuntimeError e); injection He as <-.
    + unfold run_agent_sync_fallback.
      apply adds_bind; [now apply adds_ext|]. intros _.
      apply adds_try_finally; [|apply close_loop_no_registration].
      unfold run_until_complete.
      apply adds_bind; [now apply adds_ext | intros; apply send_no_registration].
    + apply adds_ret.
Qed.

(** * Session resolution *)

Lemma except_Exception_pass_raise (m : M unit) (t t' : trace) (e : exc) :
  m t = (Raise e, t') -> except_Exception_pass m t = (Ok tt, t').
Proof. intros H. unfold except_Exception_pass, try_except. now rewrite H. Qed.

Lemma except_Exception_pass_total (m : M unit) (t : trace) :
  exists t', except_Exception_pass m t = (Ok tt, t').
Proof.
  unfold except_Exception_pass, try_except.
  destruct (m t) as [[[]|e] t']; now exists t'.
Qed.

(** The registration block of lines 92-105 ends normally in every
    environment. *)
Lemma register_session_total (E : env) (agent_choice session_id : string) (t : trace) :
  exists t', register_session E agent_choice session_id t = (Ok tt, t').
Proof. apply except_Exception_pass_total. Qed.

(** The new-session path, up to the outcome of line 111-114. *)
Lemma resolve_new_session (E : env) (history : pyval) (agent_choice : string) (t : trace) :
  not_session_id (fst (decode history)) = true ->
  let t1 := (t ++ [call_uuid4])%list in
  let sid := mint_session_id (urandom E t1) in
  exists t2,
    register_session E agent_choice sid t1 = (Ok tt, t2)
    /\ resolve E history agent_choice t
       = match prepend_marker sid (snd (decode history)) with
         | Ok h => (Ok (mkResolved sid (snd (decode history)) h), t2)
         | Raise e => (Raise e, t2)
         end.
Proof.
  intros Hn t1 sid. unfold resolve.
  destruct (decode history) as [s h]. cbn [fst snd] in *. rewrite Hn.
  destruct (register_session_total E agent_choice sid t1) as [t2 Hr].
  exists t2. split; [exact Hr|].
  unfold bind at 1. unfold uuid4. fold t1.
  change (SESSION_ID_PREFIX ++ uuid_str (uuid4_int (urandom E t1))) with sid.
  unfold bind at 1. rewrite Hr.
  unfold bind, lift, ret. now destruct (prepend_marker sid h).
Qed.

(** The reuse path makes no call at all. *)
Lemma resolve_reuse (E : env) (history : pyval) (agent_choice : string) (t : trace) :
  not_session_id (fst (decode history)) = false ->
  exists sid,
    fst (decode history) = Some sid
    /\ resolve E history agent_choice t
       = (Ok (mkResolved sid (snd (decode history)) (snd (decode history))), t).
Proof.
  intros Hn. unfold resolve.
  destruct (decode history) as [[s|] h]; cbn [fst snd] in *; [|discriminate].
  rewrite Hn. now exists s.
Qed.

Lemma prepend_marker_list (sid : string) (l : list pyval) :
  prepend_marker sid (PyList l) = Ok (PyList (encode sid :: l)).
Proof. reflexivity. Qed.

(** After the decode step a history that was [None] or a list still is. *)
Lemma decode_keeps_kind (history : pyval) :
  history = PyNone \/ (exists l, history = PyList l) ->
  snd (decode history) = PyNone \/ exists l, snd (decode history) = PyList l.
Proof.
  intros Hk. destruct (decode_history history) as [-> | (first & rest & _ & ->)].
  - exact Hk.
  - right. now exists rest.
Qed.

(** C5 (no-crash resolve): for every history that is [None] or a list,
    whatever its entries are (non-string entries, entries of any arity, a
    marker with an empty id, no entries), lines 74-117 end normally with a
    non-empty session id: the one of the marker when the decode step found a
    non-empty one, else a freshly minted one. *)
Theorem resolve_never_raises (E : env) (history : pyval) (agent_choice : string) (t : trace) :
  history = PyNone \/ (exists l, history = PyList l) ->
  exists r t',
    resolve E history agent_choice t = (Ok r, t')
    /\ session_id_of r <> ""
    /\ (fst (decode history) = Some (session_id_of r)
        \/ (not_session_id (fst (decode history)) = true
            /\ session_id_of r = mint_session_id (urandom E (t ++ [call_uuid4])%list))).
Proof.
  intros Hk. destruct (not_session_id (fst (decode history))) eqn:Hn.
  - destruct (resolve_new_session E history agent_choice t Hn) as (t2 & _ & Hr).
    destruct (decode_keeps_kind Hk) as [Hh | [l Hh]]; rewrite Hh in Hr;
      cbn [prepend_marker py_iter] in Hr;
      eexists; exists t2; (split; [exact Hr|]); cbn [session_id_of];
      (split; [apply mint_nonempty | right; now split]).
  - destruct (resolve_reuse E history agent_choice t Hn) as (sid & Hs & Hr).
    eexists; exists t. split; [exact Hr|]. cbn [session_id_of].
    split; [|now left].
    rewrite Hs in Hn. cbn [not_session_id] in Hn. now apply String.eqb_neq.
Qed.

Lemma resolve_never_raises_witness :
  exists r t',
    resolve store_down_env
            (PyList [PyTuple [PyStr "__SID__:"]; PyInt 7; PyTuple [PyNone; PyStr "a"; PyStr "b"]])
            "triage" [] = (Ok r, t')
    /\ session_id_of r <> "".
Proof.
  destruct (@resolve_never_raises store_down_env
              (PyList [PyTuple [PyStr "__SID__:"]; PyInt 7;
                       PyTuple [PyNone; PyStr "a"; PyStr "b"]])
              "triage" []) as (r & t' & Hr & Hne & _).
  - right. eexists. reflexivity.
  - exists r, t'. now split.
Defined.

(** C7 (reuse path): when the history starts with the marker of a non-empty
    session id, lines 74-117 make no call (no registration, no minting), the
    session id is the one of the marker, the history kept is the received one
    without the marker, the message is dispatched under that id, and the
    whole turn adds no registration call to the trace. *)
Theorem reuse_path (E : env) (message sid : string) (H : list pyval)
    (agent_choice : string) (t : trace) :
  sid <> "" ->
  let history := PyList (encode sid :: H) in
  resolve E history agent_choice t = (Ok (mkResolved sid (PyList H) (PyList H)), t)
  /\ chat_fn E message history agent_choice t
     = run_agent_sync E message agent_choice sid t
  /\ exists d, snd (chat_fn E message history agent_choice t) = (t ++ d)%list
               /\ forallb not_registration d = true.
Proof.
  intros Hsid history.
  assert (Hd : decode history = (Some sid, PyList H)) by apply decode_marker_tuple.
  assert (Hr : resolve E history agent_choice t
               = (Ok (mkResolved sid (PyList H) (PyList H)), t)).
  { destruct (@resolve_reuse E history agent_choice t) as (s & Hs & Hr).
    - rewrite Hd. cbn [fst not_session_id]. now apply String.eqb_neq.
    - rewrite Hd in *. cbn [fst snd] in *. now injection Hs as <-. }
  assert (Hc : chat_fn E message history agent_choice t
               = run_agent_sync E message agent_choice sid t).
  { unfold chat_fn. unfold bind at 1. rewrite Hr. cbn [session_id_of].
    unfold bind, ret. now destruct (run_agent_sync E message agent_choice sid t) as [[v|e] t']. }
  split; [exact Hr|]. split; [exact Hc|].
  rewrite Hc. apply run_agent_sync_no_registration.
Qed.

Lemma reuse_path_witness :
  resolve quiet_env (PyList [PyTuple [PyStr "__SID__:session-abc123"; PyStr ""]])
          "triage" []
  = (Ok (mkResolved "session-abc123" (PyList []) (PyList [])), []).
Proof.
  apply (@reuse_path quiet_env "Again" "session-abc123" [] "triage" []).
  discriminate.
Defined.

(** * The turn *)

Lemma chat_fn_after_resolve (E : env) (message : string) (history : pyval)
    (agent_choice : string) (t t1 : trace) (r : resolved) :
  resolve E history agent_choice t = (Ok r, t1) ->
  chat_fn E message history agent_choice t
  = run_agent_sync E message agent_choice (session_id_of r) t1.
Proof.
  intros Hr. unfold chat_fn. unfold bind at 1. rewrite Hr.
  unfold bind, ret.
  now destruct (run_agent_sync E message agent_choice (session_id_of r) t1) as [[v|e] t'].
Qed.



Example first_turn_history_to_return :
  history_to_return
    (match fst (resolve quiet_env PyNone "triage" []) with
     | Ok r => r
     | Raise _ => mkResolved "" PyNone PyNone
     end)
  = PyList [PyTuple [PyStr "__SID__:session-00000000-0000-4000-8000-000000000000";
                     PyStr ""]].
Proof. reflexivity. Qed.

(** On the primary path every fault that is not a [RuntimeError] becomes a
    diagnostic reply. *)
Lemma bridge_primary_contained (E : env) (message agent_key session_id : string) (t : trace) :
  (forall e t', asyncio_run E (_send_and_get_final_response_async
                                 E message agent_key session_id) t = (Raise e, t') ->
                is_RuntimeError e = false) ->
  exists reply t', run_agent_sync E message agent_key session_id t = (Ok reply, t').
Proof.
  intros Hp. unfold run_agent_sync, try_except.
  destruct (asyncio_run E _ t) as [[v|e] t'] eqn:Hrun.
  - now exists v, t'.
  - rewrite (Hp e t' eq_refl). now eexists; exists t'.
Qed.

(** On the new-session path, when the registration of the minted id raises,
    at whichever of its steps and with whichever fault, the block of lines
    92-105 ends normally and the turn goes on to the bridge with the message
    and the minted id: the outcome of the turn is the outcome of the bridge,
    a reply whenever the bridge's primary path is not refused with a
    [RuntimeError]. *)
Lemma registration_failure_swallowed (E : env) (message : string) (history : pyval)
    (agent_choice : string) (t t2 : trace) (e : exc) :
  history = PyNone \/ (exists l, history = PyList l) ->
  not_session_id (fst (decode history)) = true ->
  let t1 := (t ++ [call_uuid4])%list in
  let sid := mint_session_id (urandom E t1) in
  register_session_try E agent_choice sid t1 = (Raise e, t2) ->
  register_session E agent_choice sid t1 = (Ok tt, t2)
  /\ chat_fn E message history agent_choice t
     = run_agent_sync E message agent_choice sid t2
  /\ ((forall e' t', asyncio_run E (_send_and_get_final_response_async
                                      E message agent_choice sid) t2 = (Raise e', t') ->
                     is_RuntimeError e' = false) ->
      exists reply t3, chat_fn E message history agent_choice t = (Ok reply, t3)).
Proof.
  intros Hk Hn t1 sid Hfail.
  assert (Hreg : register_session E agent_choice sid t1 = (Ok tt, t2))
    by now apply except_Exception_pass_raise with (e := e).
  destruct (resolve_new_session E history agent_choice t Hn) as (t2' & Hreg' & Hr).
  fold t1 sid in Hreg', Hr. rewrite Hreg in Hreg'. injection Hreg' as <-.
  assert (Hc : chat_fn E message history agent_choice t
               = run_agent_sync E message agent_choice sid t2).
  { destruct (decode_keeps_kind Hk) as [Hh | [l Hh]]; rewrite Hh in Hr;
      cbn [prepend_marker py_iter] in Hr;
      now rewrite (@chat_fn_after_resolve E message _ _ _ _ _ Hr). }
  split; [exact Hreg|]. split; [exact Hc|].
  intros Hp. rewrite Hc. now apply bridge_primary_contained.
Qed.

Example registration_failure_swallowed_at_store_down :
  register_session store_down_env "triage"
                   "session-00000000-0000-4000-8000-000000000000" [call_uuid4]
  = (Ok tt, [call_uuid4; call_make_runner_for "triage_agent"; call_new_event_loop;
             call_run_until_complete;
             call_create_session "mediflow" "visitor"
                                 "session-00000000-0000-4000-8000-000000000000";
             call_run_until_complete; call_shutdown_asyncgens; call_loop_close])
  /\ fst (chat_fn store_down_env "Hello" PyNone "triage" []) = Ok (PyStr "Take rest.").
Proof.
  destruct (@registration_failure_swallowed store_down_env "Hello" PyNone "triage" []
              [call_uuid4; call_make_runner_for "triage_agent"; call_new_event_loop;
               call_run_until_complete;
               call_create_session "mediflow" "visitor"
                                   "session-00000000-0000-4000-8000-000000000000";
               call_run_until_complete; call_shutdown_asyncgens; call_loop_close]
              already_exists) as (Hreg & Hc & _).
  - now left.
  - reflexivity.
  - reflexivity.
  - split; [exact Hreg|]. rewrite Hc. reflexivity.
Defined.

(** C8 (registration failure swallowed) at the failing input: a first turn
    made from a thread whose event loop is running.  The registration of the
    minted id raises at [run_until_complete] and the block of lines 92-105
    swallows the fault, as the claim says; the turn goes on to line 120,
    where the bridge is refused by [asyncio.run], takes its fallback path and
    lets the [RuntimeError] of that path's [run_until_complete] out.  The
    turn ends with that fault, without a reply and without a dispatch. *)
Theorem swallowed_registration_then_no_reply :
  let sid := "session-00000000-0000-4000-8000-000000000000" in
  let t2 := [call_uuid4; call_make_runner_for "triage_agent"; call_new_event_loop;
             call_run_until_complete; call_run_until_complete; call_loop_close] in
  register_session_try running_loop_env "triage" sid [call_uuid4]
  = (Raise another_loop_running, t2)
  /\ register_session running_loop_env "triage" sid [call_uuid4] = (Ok tt, t2)
  /\ resolve running_loop_env PyNone "triage" []
     = (Ok (mkResolved sid PyNone (PyList [encode sid])), t2)
  /\ fst (chat_fn running_loop_env "Hello" PyNone "triage" [])
     = Raise another_loop_running
  /\ dispatches (snd (chat_fn running_loop_env "Hello" PyNone "triage" [])) = 0%nat.
Proof. repeat split; reflexivity. Qed.

(** * The reply *)

Lemma scan_events_last (events : list Event) (init : pyval) :
  fold_left scan_step events init
  = match last_qualifying events with
    | Some ev => first_part_text ev
    | None => init
    end.
Proof.
  induction events as [|ev events IH] using rev_ind; [reflexivity|].
  rewrite fold_left_app. cbn [fold_left]. unfold last_qualifying.
  rewrite rev_unit. cbn [find]. unfold scan_step at 1.
  destruct (qualifies ev); [reflexivity | exact IH].
Qed.

(** What lines 35-42 read from the stream once the runner is built: the
    diagnostic when the stream raises, else [parts[0].text] of the last event
    that passes line 38, else the placeholder. *)
Lemma stream_reply (E : env) (message agent_key session_id : string)
    (t t1 : trace) (runner : string) :
  make_runner_for E agent_key t = (Ok runner, t1) ->
  let t2 := (t1 ++ [call_run_async runner (USER_ID E) session_id message])%list in
  let s := run_async E t2 in
  exists reply,
    _send_and_get_final_response_async E message agent_key session_id t
    = (Ok reply, t2)
    /\ match stream_fault s with
       | Some e => reply = PyStr (agent_runtime_error e)
       | None =>
           match last_qualifying (stream_events s) with
           | Some ev => reply = first_part_text ev
           | None => reply = PyStr "(no response)"
           end
       end.
Proof.
  intros Hrun t2 s. exists (scan s). split.
  - unfold _send_and_get_final_response_async, bind. now rewrite Hrun.
  - unfold scan. destruct (stream_fault s); [reflexivity|].
    rewrite scan_events_last. now destruct (last_qualifying (stream_events s)).
Qed.

(** C2 (reply postcondition) at the failing input: the runtime answers with
    one event that is final and has a content with one part, and that part
    carries no text.  The event passes line 38, line 39 assigns the [text] of
    its part, which is [None], and [None] is what the coroutine, the bridge
    and [chat_fn] return, where the claim and the docstring of [chat_fn]
    promise a string; an event after it that is not final does not change
    that, and with a text in the same part the reply is that text. *)
Theorem textless_final_event_replies_None :
  run_async textless_env [] = mkStream [final_event None] None
  /\ _send_and_get_final_response_async
       textless_env "Hello" "triage" "session-abc123" []
     = (Ok PyNone,
        [call_make_runner_for "triage_agent";
         call_run_async "triage_agent" "visitor" "session-abc123" "Hello"])
  /\ fst (run_agent_sync textless_env "Hello" "triage" "session-abc123" [])
     = Ok PyNone
  /\ fst (run_agent_sync trailing_partial_env "Hello" "triage" "session-abc123" [])
     = Ok PyNone
  /\ fst (chat_fn textless_env "Hello" (PyList [encode "session-abc123"]) "triage" [])
     = Ok PyNone
  /\ fst (chat_fn store_down_env "Hello" (PyList [encode "session-abc123"]) "triage" [])
     = Ok (PyStr "Take rest.").
Proof. repeat split; reflexivity. Qed.

Example late_fault_replaces_text :
  fst (_send_and_get_final_response_async
         late_fault_env "Hello" "triage" "session-abc123" [])
  = Ok (PyStr ("[Agent runtime error] connection lost" ++ newline
               ++ "Traceback (most recent call last): ...")).
Proof. reflexivity. Qed.

Example reply_placeholder :
  fst (_send_and_get_final_response_async
         quiet_env "Hello" "triage" "session-abc123" [])
  = Ok (PyStr "(no response)").
Proof. reflexivity. Qed.

(** * The bridge *)

(** A fault of the fallback path leaves [run_agent_sync]: the clause
    [except Exception] of line 59 does not guard the handler of line 48. *)
Lemma bridge_fallback_not_contained (E : env) (message agent_key session_id : string)
    (t t1 t2 : trace) (e e' : exc) :
  asyncio_run E (_send_and_get_final_response_async E message agent_key session_id) t
  = (Raise e, t1) ->
  is_RuntimeError e = true ->
  run_agent_sync_fallback E message agent_key session_id t1 = (Raise e', t2) ->
  run_agent_sync E message agent_key session_id t = (Raise e', t2).
Proof.
  intros Hrun He Hfb. unfold run_agent_sync, try_except. now rewrite Hrun, He.
Qed.

(** C4 (bridge fault containment) at the failing input: called from a thread
    whose event loop is running, the bridge takes the fallback path, the
    fallback's [run_until_complete] raises, and the [RuntimeError] leaves
    [run_agent_sync] and [chat_fn] instead of becoming a diagnostic reply. *)
Theorem bridge_fallback_fault_escapes :
  run_agent_sync running_loop_env "Hello" "triage" "session-abc123" []
  = (Raise another_loop_running,
     [call_asyncio_run; call_new_event_loop; call_run_until_complete;
      call_run_until_complete; call_loop_close])
  /\ fst (chat_fn running_loop_env "Hello"
                  (PyList [encode "session-abc123"]) "triage" [])
     = Raise another_loop_running.
Proof. split; reflexivity. Qed.

(** * Beyond the claims: the protocol across turns *)

Lemma prepend_marker_shape (sid : string) (h h' : pyval) :
  prepend_marker sid h = Ok h' ->
  exists items,
    h' = PyList (encode sid :: items)
    /\ ((h = PyNone /\ items = []) \/ py_iter h = Ok items).
Proof.
  destruct h; cbn [prepend_marker py_iter]; intros [= <-];
    eexists; (split; [reflexivity|]); auto.
Qed.

Lemma resolve_marker (E : env) (sid : string) (H : list pyval)
    (agent_choice : string) (t : trace) :
  sid <> "" ->
  resolve E (PyList (encode sid :: H)) agent_choice t
  = (Ok (mkResolved sid (PyList H) (PyList H)), t).
Proof.
  intros Hsid.
  assert (Hd : decode (PyList (encode sid :: H)) = (Some sid, PyList H))
    by apply decode_marker_tuple.
  destruct (@resolve_reuse E (PyList (encode sid :: H)) agent_choice t)
    as (s & Hs & Hr).
  - rewrite Hd. cbn [fst not_session_id]. now apply String.eqb_neq.
  - rewrite Hd in *. cbn [fst snd] in *. now injection Hs as <-.
Qed.

(** The history a new-session turn builds for the client starts with the
    marker of the minted id, and the next turn that receives it (in any
    environment, for any agent) decodes that same id without minting or
    registering anything, and is left with the items of the earlier
    history. *)
Theorem marker_survives_next_turn (E E' : env) (history : pyval)
    (agent_choice agent_choice' : string) (t t1 t' : trace) (r : resolved) :
  not_session_id (fst (decode history)) = true ->
  resolve E history agent_choice t = (Ok r, t1) ->
  exists items,
    history_to_return r = PyList (encode (session_id_of r) :: items)
    /\ ((history_of r = PyNone /\ items = []) \/ py_iter (history_of r) = Ok items)
    /\ resolve E' (history_to_return r) agent_choice' t'
       = (Ok (mkResolved (session_id_of r) (PyList items) (PyList items)), t').
Proof.
  intros Hn Hr.
  destruct (resolve_new_session E history agent_choice t Hn) as (t2 & _ & Hres).
  rewrite Hr in Hres.
  destruct (prepend_marker _ (snd (decode history))) as [hp|e] eqn:Hp;
    [|discriminate].
  injection Hres as -> ->. cbn [history_to_return session_id_of history_of].
  destruct (prepend_marker_shape _ _ Hp) as (items & -> & Hitems).
  exists items. split; [reflexivity|]. split; [exact Hitems|].
  apply resolve_marker, mint_nonempty.
Qed.

Lemma marker_survives_next_turn_witness :
  resolve store_down_env
          (PyList [encode "session-00000000-0000-4000-8000-000000000000";
                   PyTuple [PyStr "Hi"; PyStr "Hello!"]])
          "triage" []
  = (Ok (mkResolved "session-00000000-0000-4000-8000-000000000000"
                    (PyList [PyTuple [PyStr "Hi"; PyStr "Hello!"]])
                    (PyList [PyTuple [PyStr "Hi"; PyStr "Hello!"]])), []).
Proof.
  destruct (@marker_survives_next_turn quiet_env store_down_env
              (PyList [PyTuple [PyStr "Hi"; PyStr "Hello!"]]) "triage" "triage"
              [] _ [] _ eq_refl eq_refl) as (items & _ & Hitems & Hr).
  cbn [history_of py_iter] in Hitems.
  destruct Hitems as [[Hx _] | Hi]; [discriminate Hx|].
  injection Hi as <-. exact Hr.
Defined.

(** A history that is neither [None] nor iterable (an int, a bool) makes the
    turn raise the [TypeError] of line 114, after the id was minted and its
    registration attempted and before anything is dispatched. *)
Theorem non_iterable_history_raises (E : env) (message : string) (history : pyval)
    (agent_choice : string) (t : trace) (e : exc) :
  history <> PyNone ->
  py_iter history = Raise e ->
  let t1 := (t ++ [call_uuid4])%list in
  let sid := mint_session_id (urandom E t1) in
  exc_cls e = TypeError
  /\ exists t2,
       register_session E agent_choice sid t1 = (Ok tt, t2)
       /\ chat_fn E message history agent_choice t = (Raise e, t2).
Proof.
  intros Hnone Hit t1 sid.
  assert (Hd : decode history = (None, history)).
  { apply decode_absent. destruct history; try reflexivity; discriminate Hit. }
  split.
  { destruct history; cbn [py_iter] in Hit; try discriminate Hit;
      now injection Hit as <-. }
  destruct (@resolve_new_session E history agent_choice t) as (t2 & Hreg & Hr).
  { now rewrite Hd. }
  exists t2. split; [exact Hreg|].
  rewrite Hd in Hr. cbn [snd] in Hr.
  assert (Hp : prepend_marker sid history = Raise e).
  { destruct history; cbn [prepend_marker] in *; try congruence; now rewrite Hit. }
  fold t1 sid in Hr. rewrite Hp in Hr.
  unfold chat_fn, bind. now rewrite Hr.
Qed.

Lemma non_iterable_history_raises_witness :
  exists t2,
    chat_fn quiet_env "Hello" (PyInt 5) "triage" []
    = (Raise (type_error "Value after * must be an iterable, not int"), t2).
Proof.
  destruct (@non_iterable_history_raises quiet_env "Hello" (PyInt 5) "triage" []
              (type_error "Value after * must be an iterable, not int")) as (_ & t2 & _ & Hc).
  - discriminate.
  - reflexivity.
  - exists t2. exact Hc.
Defined.

(** * Beyond the claims: which faults reach the caller *)

Section Raises.
Variable Q : exc -> bool.





End Raises.







(** An agent key that [AGENTS] does not hold yields the diagnostic reply of
    line 60 for a [KeyError], provided [asyncio.run] itself starts and ends
    without a fault; no runner is built and nothing is dispatched. *)
Theorem unknown_agent_reply (E : env) (message agent_key session_id : string) (t : trace) :
  find (fun p => String.eqb (fst p) agent_key) (AGENTS E) = None ->
  fault E t call_asyncio_run = None ->
  fault E (t ++ [call_asyncio_run])%list call_asyncio_run_teardown = None ->
  exists e,
    exc_cls e = KeyError
    /\ run_agent_sync E message agent_key session_id t
       = (Ok (PyStr ("[Error invoking agent] " ++ exc_str e ++ newline
                     ++ exc_traceback e)),
          (t ++ [call_asyncio_run; call_asyncio_run_teardown])%list).
Proof.
  intros Hfind Hrun Htd. exists (key_error agent_key). split; [reflexivity|].
  unfold run_agent_sync, try_except, asyncio_run, bind at 1, ext at 1.
  rewrite Hrun.
  unfold try_finally, _send_and_get_final_response_async, bind at 1,
    make_runner_for, bind at 1, AGENTS_getitem.
  rewrite Hfind. unfold raise, ext. rewrite Htd.
  cbn [is_RuntimeError key_error exc_cls]. unfold ret, error_invoking_agent.
  now rewrite <- app_assoc.
Qed.

Lemma unknown_agent_reply_witness :
  exists e,
    exc_cls e = KeyError
    /\ run_agent_sync quiet_env "Hello" "no-such-agent" "session-abc123" []
       = (Ok (PyStr ("[Error invoking agent] " ++ exc_str e ++ newline
                     ++ exc_traceback e)),
          [call_asyncio_run; call_asyncio_run_teardown]).
Proof.
  apply (@unknown_agent_reply quiet_env "Hello" "no-such-agent" "session-abc123" []);
    reflexivity.
Defined.

(** * Beyond the claims: event loops and the startup session *)

(** [loop.close()] is the last call of every [finally] block, whether or not
    [shutdown_asyncgens] could run, and alone decides how the block ends. *)
Lemma close_loop_closes (E : env) (t : trace) :
  exists d,
    snd (close_loop E t) = (t ++ d ++ [call_loop_close])%list
    /\ fst (close_loop E t)
       = match fault E (t ++ d)%list call_loop_close with
         | Some e => Raise e
         | None => Ok tt
         end.
Proof.
  unfold close_loop, except_Exception_pass, try_except, run_until_complete,
    bind, ext, ret.
  destruct (fault E t call_run_until_complete) eqn:Hr.
  - exists [call_run_until_complete].
    destruct (fault E (t ++ [call_run_until_complete])%list call_loop_close);
      cbn [fst snd]; now rewrite <- app_assoc.
  - exists [call_run_until_complete; call_shutdown_asyncgens].
    replace (t ++ [call_run_until_complete; call_shutdown_asyncgens])%list
      with ((t ++ [call_run_until_complete]) ++ [call_shutdown_asyncgens])%list
      by now rewrite <- app_assoc.
    destruct (fault E (t ++ [call_run_until_complete])%list call_shutdown_asyncgens);
      destruct (fault E _ call_loop_close); cbn [fst snd];
      now rewrite <- !app_assoc.
Qed.

Lemma finally_close_loop {A} (E : env) (m : M A) (t : trace) :
  (exists d0, snd (m t) = (t ++ d0)%list) ->
  exists d, snd (try_finally m (close_loop E) t) = (t ++ d ++ [call_loop_close])%list.
Proof.
  intros [d0 Hm]. unfold try_finally. destruct (m t) as [r t0]. cbn [snd] in Hm.
  destruct (close_loop_closes E t0) as (d & Hd & _).
  destruct (close_loop E t0) as [[u|e] t1]; cbn [snd] in *; subst;
    exists (d0 ++ d)%list; now rewrite <- !app_assoc.
Qed.

Lemma adds_extends {A} (P : call -> bool) (m : M A) (t : trace) :
  adds P m -> exists d, snd (m t) = (t ++ d)%list.
Proof. intros H. destruct (H t) as (d & Hd & _). now exists d. Qed.

(** On the fallback path of the bridge a loop that was created is closed
    before [run_agent_sync] is left, however the dispatch ended; when the
    loop cannot be created, that fault is all that happens. *)
Theorem fallback_loop_is_closed (E : env) (message agent_key session_id : string)
    (t : trace) :
  match fault E t call_new_event_loop with
  | None =>
      exists d,
        snd (run_agent_sync_fallback E message agent_key session_id t)
        = (t ++ [call_new_event_loop] ++ d ++ [call_loop_close])%list
  | Some e =>
      run_agent_sync_fallback E message agent_key session_id t
      = (Raise e, (t ++ [call_new_event_loop])%list)
  end.
Proof.
  destruct (fault E t call_new_event_loop) eqn:Hnl;
    unfold run_agent_sync_fallback, bind at 1, ext at 1; rewrite Hnl;
    [reflexivity|].
  destruct (@finally_close_loop _ E
              (run_until_complete E
                 (_send_and_get_final_response_async E message agent_key session_id))
              (t ++ [call_new_event_loop])%list) as [d Hd].
  - apply adds_extends with (P := not_registration).
    unfold run_until_complete.
    apply adds_bind; [now apply adds_ext | intros; apply send_no_registration].
  - exists d. rewrite Hd. now rewrite <- app_assoc.
Qed.

(** [ensure_session_for] returns normally only when the session was really
    created: the runner was built, a loop was created, [create_session] was
    called for the given id under [APP_NAME] and [USER_ID] and did not fail,
    and the loop was closed last.  A fault of the creation is not swallowed
    here, unlike in [chat_fn]. *)
Theorem ensure_session_for_success (E : env) (agent_key session_id : string)
    (t t' : trace) :
  ensure_session_for E agent_key session_id t = (Ok tt, t') ->
  exists p d,
    find (fun p => String.eqb (fst p) agent_key) (AGENTS E) = Some p
    /\ t' = (t ++ [call_make_runner_for (snd p); call_new_event_loop;
                   call_run_until_complete;
                   call_create_session (APP_NAME E) (USER_ID E) session_id]
               ++ d ++ [call_loop_close])%list
    /\ fault E (t ++ [call_make_runner_for (snd p); call_new_event_loop;
                      call_run_until_complete])%list
             (call_create_session (APP_NAME E) (USER_ID E) session_id) = None.
Proof.
  unfold ensure_session_for, make_runner_for, AGENTS_getitem.
  destruct (find _ (AGENTS E)) as [p|] eqn:Hfind; [|discriminate].
  unfold bind at 1 2, ret at 1, bind at 1, ext at 1.
  destruct (fault E t (call_make_runner_for (snd p))) eqn:Hmk; [discriminate|].
  unfold ret at 1, bind at 1, ext at 1.
  destruct (fault E _ call_new_event_loop) eqn:Hnl; [discriminate|].
  unfold try_finally, run_until_complete, bind at 1, ext at 1.
  destruct (fault E _ call_run_until_complete) eqn:Hruc.
  { destruct (close_loop E _) as [[u|e0] t0]; discriminate. }
  unfold ext at 1.
  destruct (fault E _ (call_create_session _ _ _)) eqn:Hcs.
  { destruct (close_loop E _) as [[u|e0] t0]; discriminate. }
  match goal with |- context [close_loop E ?t0] =>
    destruct (close_loop_closes E t0) as (d & Hd & _);
    destruct (close_loop E t0) as [[u|e0] t1] end; [|discriminate].
  intros [= <-]. cbn [snd] in Hd. exists p, d.
  split; [reflexivity|]. split.
  - rewrite Hd. now rewrite <- !app_assoc.
  - rewrite <- Hcs. f_equal. now rewrite <- !app_assoc.
Qed.

Lemma ensure_session_for_success_witness :
  exists p d,
    find (fun p => String.eqb (fst p) "triage") (AGENTS quiet_env) = Some p
    /\ [call_make_runner_for "triage_agent"; call_new_event_loop;
        call_run_until_complete;
        call_create_session "mediflow" "visitor" "global-startup";
        call_run_until_complete; call_shutdown_asyncgens; call_loop_close]
       = ([] ++ [call_make_runner_for (snd p); call_new_event_loop;
                 call_run_until_complete;
                 call_create_session (APP_NAME quiet_env) (USER_ID quiet_env)
                                     "global-startup"]
             ++ d ++ [call_loop_close])%list
    /\ fault quiet_env
             ([] ++ [call_make_runner_for (snd p); call_new_event_loop;
                     call_run_until_complete])%list
             (call_create_session (APP_NAME quiet_env) (USER_ID quiet_env)
                                  "global-startup") = None.
Proof.
  apply (@ensure_session_for_success quiet_env "triage" "global-startup" []).
  reflexivity.
Defined.

(** Once the runner is built and the loop created, [ensure_session_for]
    closes that loop before it is left, whether the session was created or
    the creation failed; [chat_fn]'s registration block makes the same
    calls. *)
Theorem startup_loop_is_closed (E : env) (agent_key session_id agent : string)
    (t t0 : trace) :
  make_runner_for E agent_key t = (Ok agent, t0) ->
  fault E t0 call_new_event_loop = None ->
  exists d,
    snd (ensure_session_for E agent_key session_id t)
    = (t0 ++ [call_new_event_loop] ++ d ++ [call_loop_close])%list
    /\ snd (register_session E agent_key session_id t)
       = snd (ensure_session_for E agent_key session_id t).
Proof.
  intros Hmk Hnl.
  destruct (@finally_close_loop _ E
              (run_until_complete E
                 (ext E (call_create_session (APP_NAME E) (USER_ID E) session_id)))
              (t0 ++ [call_new_event_loop])%list) as [d Hd].
  { apply adds_extends with (P := fun _ => true). unfold run_until_complete.
    apply adds_bind; [now apply adds_ext | intros; now apply adds_ext]. }
  exists d. split.
  - unfold ensure_session_for, bind at 1. rewrite Hmk.
    unfold bind at 1, ext at 1. rewrite Hnl. rewrite Hd.
    now rewrite <- app_assoc.
  - unfold register_session, except_Exception_pass, try_except.
    change (register_session_try E agent_key session_id)
      with (ensure_session_for E agent_key session_id).
    now destruct (ensure_session_for E agent_key session_id t) as [[u|e] t1].
Qed.

Lemma startup_loop_is_closed_witness :
  exists d,
    snd (ensure_session_for store_down_env "triage" "global-startup" [])
    = ([call_make_runner_for "triage_agent"] ++ [call_new_event_loop] ++ d
         ++ [call_loop_close])%list
    /\ snd (register_session store_down_env "triage" "global-startup" [])
       = snd (ensure_session_for store_down_env "triage" "global-startup" []).
Proof.
  apply (@startup_loop_is_closed store_down_env "triage" "global-startup"
           "triage_agent" [] [call_make_runner_for "triage_agent"]);
    reflexivity.
Defined.

Example startup_fault_propagates :
  fst (module_startup store_down_env []) = Raise already_exists
  /\ fst (register_session store_down_env DEFAULT_AGENT_KEY "global-startup" [])
     = Ok tt.
Proof. split; reflexivity. Qed.

(** * Beyond the claims: how often and to whom a turn dispatches *)

Lemma dispatches_app (d d' : trace) :
  dispatches (d ++ d')%list = (dispatches d + dispatches d')%nat.
Proof. unfold dispatches. now rewrite filter_app, length_app. Qed.

Lemma sends_mono {A} (n n' : nat) (m : M A) :
  (n <= n')%nat -> sends_at_most n m -> sends_at_most n' m.
Proof. intros Hle Hm t. destruct (Hm t) as (d & Hd & Hn). exists d. split; [easy|lia]. Qed.

Lemma sends_ret {A} (a : A) : sends_at_most 0 (ret a).
Proof. intros t. exists []. now rewrite app_nil_r. Qed.

Lemma sends_raise {A} (e : exc) : sends_at_most 0 (@raise A e).
Proof. intros t. exists []. now rewrite app_nil_r. Qed.

Lemma sends_lift {A} (r : result A) : sends_at_most 0 (lift r).
Proof. intros t. exists []. now rewrite app_nil_r. Qed.

Lemma sends_bind {A B} (n1 n2 : nat) (m : M A) (k : A -> M B) :
  sends_at_most n1 m -> (forall a, sends_at_most n2 (k a)) ->
  sends_at_most (n1 + n2) (bind m k).
Proof.
  intros Hm Hk t. unfold bind.
  destruct (Hm t) as (d & Hd & Hn). destruct (m t) as [[a|e] t1]; cbn [snd] in *.
  - destruct (Hk a t1) as (d' & Hd' & Hn'). exists (d ++ d')%list.
    rewrite Hd', Hd, app_assoc, dispatches_app. split; [reflexivity | lia].
  - exists d. split; [assumption | lia].
Qed.

Lemma sends_try_except {A} (n1 n2 : nat) (m : M A) (handlers : exc -> option (M A)) :
  sends_at_most n1 m ->
  (forall e h, handlers e = Some h -> sends_at_most n2 h) ->
  sends_at_most (n1 + n2) (try_except m handlers).
Proof.
  intros Hm Hh t. unfold try_except.
  destruct (Hm t) as (d & Hd & Hn). destruct (m t) as [[a|e] t1]; cbn [snd] in *.
  - exists d. split; [assumption | lia].
  - destruct (handlers e) as [h|] eqn:He.
    + destruct (Hh e h He t1) as (d' & Hd' & Hn'). exists (d ++ d')%list.
      rewrite Hd', Hd, app_assoc, dispatches_app. split; [reflexivity | lia].
    + exists d. split; [assumption | lia].
Qed.

Lemma sends_try_finally {A} (n1 n2 : nat) (m : M A) (fin : M unit) :
  sends_at_most n1 m -> sends_at_most n2 fin ->
  sends_at_most (n1 + n2) (try_finally m fin).
Proof.
  intros Hm Hf t. unfold try_finally.
  destruct (Hm t) as (d & Hd & Hn). destruct (m t) as [r t1]; cbn [snd] in *.
  destruct (Hf t1) as (d' & Hd' & Hn').
  exists (d ++ d')%list. rewrite app_assoc, dispatches_app, <- Hd.
  split; [|lia].
  now destruct (fin t1) as [[u|e] t2]; cbn [snd] in *.
Qed.

Lemma sends_ext (E : env) (c : call) :
  is_dispatch c = false -> sends_at_most 0 (ext E c).
Proof.
  intros Hc t. exists [c]. unfold ext, dispatches. cbn [filter]. rewrite Hc.
  split; [now destruct (fault E t c) | reflexivity].
Qed.

Lemma make_runner_for_sends (E : env) (agent_key : string) :
  sends_at_most 0 (make_runner_for E agent_key).
Proof.
  unfold make_runner_for. apply (@sends_bind _ _ 0 0).
  - unfold AGENTS_getitem.
    destruct (find _ (AGENTS E)); [apply sends_ret | apply sends_raise].
  - intros agent. apply (@sends_bind _ _ 0 0); [now apply sends_ext|].
    intros; apply sends_ret.
Qed.

Lemma send_sends_once (E : env) (message agent_key session_id : string) :
  sends_at_most 1 (_send_and_get_final_response_async E message agent_key session_id).
Proof.
  unfold _send_and_get_final_response_async. apply (@sends_bind _ _ 0 1).
  - apply make_runner_for_sends.
  - intros runner t. eexists [_]. split; reflexivity.
Qed.

Lemma close_loop_sends (E : env) : sends_at_most 0 (close_loop E).
Proof.
  unfold close_loop, except_Exception_pass, run_until_complete.
  apply (@sends_bind _ _ 0 0); [|intros; now apply sends_ext].
  apply (@sends_try_except _ 0 0).
  - apply (@sends_bind _ _ 0 0); [now apply sends_ext | intros; now apply sends_ext].
  - intros e h [= <-]. apply sends_ret.
Qed.

Lemma asyncio_run_sends_once (E : env) (message agent_key session_id : string) :
  sends_at_most 1
    (asyncio_run E (_send_and_get_final_response_async E message agent_key session_id)).
Proof.
  unfold asyncio_run. apply (@sends_bind _ _ 0 1); [now apply sends_ext|].
  intros _. apply (@sends_try_finally _ 1 0);
    [apply send_sends_once | now apply sends_ext].
Qed.

Lemma fallback_sends_once (E : env) (message agent_key session_id : string) :
  sends_at_most 1 (run_agent_sync_fallback E message agent_key session_id).
Proof.
  unfold run_agent_sync_fallback.
  apply (@sends_bind _ _ 0 1); [now apply sends_ext|]. intros _.
  apply (@sends_try_finally _ 1 0); [|apply close_loop_sends].
  unfold run_until_complete.
  apply (@sends_bind _ _ 0 1); [now apply sends_ext | intros; apply send_sends_once].
Qed.

Lemma run_agent_sync_sends_twice (E : env) (message agent_key session_id : string) :
  sends_at_most 2 (run_agent_sync E message agent_key session_id).
Proof.
  unfold run_agent_sync. apply (@sends_try_except _ 1 1).
  - apply asyncio_run_sends_once.
  - intros e h He. destruct (is_RuntimeError e); injection He as <-.
    + apply fallback_sends_once.
    + apply sends_mono with (n := 0%nat); [lia | apply sends_ret].
Qed.

Lemma register_session_sends (E : env) (agent_choice session_id : string) :
  sends_at_most 0 (register_session E agent_choice session_id).
Proof.
  unfold register_session, except_Exception_pass, register_session_try.
  apply (@sends_try_except _ 0 0).
  - apply (@sends_bind _ _ 0 0); [apply make_runner_for_sends|]. intros _.
    apply (@sends_bind _ _ 0 0); [now apply sends_ext|]. intros _.
    apply (@sends_try_finally _ 0 0); [|apply close_loop_sends].
    unfold run_until_complete.
    apply (@sends_bind _ _ 0 0); [now apply sends_ext | intros; now apply sends_ext].
  - intros e h [= <-]. apply sends_ret.
Qed.

Lemma resolve_sends (E : env) (history : pyval) (agent_choice : string) :
  sends_at_most 0 (resolve E history agent_choice).
Proof.
  unfold resolve. destruct (decode history) as [sid h].
  destruct (not_session_id sid); [|apply sends_ret].
  apply (@sends_bind _ _ 0 0).
  - intros t. exists [call_uuid4]. split; reflexivity.
  - intros u. apply (@sends_bind _ _ 0 0); [apply register_session_sends|].
    intros _. apply (@sends_bind _ _ 0 0); [apply sends_lift|].
    intros; apply sends_ret.
Qed.

(** A turn hands its message to the agent runtime at most twice, whatever
    the history and the environment; twice is reached when [asyncio.run]
    fails with a [RuntimeError] after the coroutine has run, since the
    fallback path then runs the coroutine again. *)
Theorem turn_dispatches_at_most_twice :
  (forall (E : env) (message : string) (history : pyval) (agent_choice : string)
          (t : trace),
      exists d, snd (chat_fn E message history agent_choice t) = (t ++ d)%list
                /\ (dispatches d <= 2)%nat)
  /\ dispatches (snd (chat_fn teardown_fault_env "Hello" PyNone "triage" [])) = 2%nat.
Proof.
  split; [|reflexivity].
  intros E message history agent_choice t.
  assert (H : sends_at_most 2 (chat_fn E message history agent_choice)).
  { unfold chat_fn. apply (@sends_bind _ _ 0 2); [apply resolve_sends|].
    intros r. apply sends_mono with (n := (2 + 0)%nat); [lia|].
    apply (@sends_bind _ _ 2 0); [apply run_agent_sync_sends_twice|].
    intros; apply sends_ret. }
  apply H.
Qed.

Lemma send_dispatch_of (E : env) (message agent_key session_id : string) :
  adds (dispatch_of E session_id message)
       (_send_and_get_final_response_async E message agent_key session_id).
Proof.
  unfold _send_and_get_final_response_async. apply adds_bind.
  - unfold make_runner_for. apply adds_bind.
    + unfold AGENTS_getitem.
      destruct (find _ (AGENTS E)); [apply adds_ret | apply adds_raise].
    + intros agent. apply adds_bind; [now apply adds_ext | intros; apply adds_ret].
  - intros runner t. eexists [_]. split; [reflexivity|].
    cbn [forallb dispatch_of]. now rewrite !String.eqb_refl.
Qed.

Lemma close_loop_dispatch_of (E : env) (session_id message : string) :
  adds (dispatch_of E session_id message) (close_loop E).
Proof.
  unfold close_loop, except_Exception_pass, run_until_complete.
  apply adds_bind; [|intros; now apply adds_ext].
  apply adds_try_except.
  - apply adds_bind; [now apply adds_ext | intros; now apply adds_ext].
  - intros e h [= <-]. apply adds_ret.
Qed.

Lemma run_agent_sync_dispatch_of (E : env) (message agent_key session_id : string) :
  adds (dispatch_of E session_id message)
       (run_agent_sync E message agent_key session_id).
Proof.
  unfold run_agent_sync. apply adds_try_except.
  - unfold asyncio_run. apply adds_bind; [now apply adds_ext|]. intros _.
    apply adds_try_finally; [apply send_dispatch_of | now apply adds_ext].
  - intros e h He. destruct (is_RuntimeError e); injection He as <-.
    + unfold run_agent_sync_fallback.
      apply adds_bind; [now apply adds_ext|]. intros _.
      apply adds_try_finally; [|apply close_loop_dispatch_of].
      unfold run_until_complete.
      apply adds_bind; [now apply adds_ext | intros; apply send_dispatch_of].
    + apply adds_ret.
Qed.

(** Nothing is dispatched while the session is resolved, and every dispatch
    of the turn after that hands the turn's own message to the session the
    resolution settled on, under the module's [USER_ID]. *)
Theorem turn_dispatches_to_resolved_session (E : env) (message : string)
    (history : pyval) (agent_choice : string) (t t1 : trace) (r : resolved) :
  resolve E history agent_choice t = (Ok r, t1) ->
  (exists d0, t1 = (t ++ d0)%list /\ dispatches d0 = 0%nat)
  /\ exists d, snd (chat_fn E message history agent_choice t) = (t1 ++ d)%list
               /\ forallb (dispatch_of E (session_id_of r) message) d = true.
Proof.
  intros Hr. split.
  - destruct (resolve_sends E history agent_choice t) as (d0 & Hd0 & Hn).
    rewrite Hr in Hd0. exists d0. split; [exact Hd0 | lia].
  - rewrite (@chat_fn_after_resolve E message _ _ _ _ _ Hr).
    apply run_agent_sync_dispatch_of.
Qed.

Lemma turn_dispatches_to_resolved_session_witness :
  exists d,
    snd (chat_fn teardown_fault_env "Again"
                 (PyList [encode "session-abc123"]) "triage" []) = ([] ++ d)%list
    /\ forallb (dispatch_of teardown_fault_env "session-abc123" "Again") d = true.
Proof.
  apply (@turn_dispatches_to_resolved_session teardown_fault_env "Again"
           (PyList [encode "session-abc123"]) "triage" [] []
           (mkResolved "session-abc123" (PyList []) (PyList []))).
  reflexivity.
Defined.

(** * Beyond the claims: a turn when nothing fails *)

Lemma run_agent_sync_faultless (E : env) (message agent_key session_id : string)
    (t : trace) (p : string * string) :
  faultless E ->
  find (fun p => String.eqb (fst p) agent_key) (AGENTS E) = Some p ->
  let t1 := (t ++ [call_asyncio_run; call_make_runner_for (snd p);
                   call_run_async (snd p) (USER_ID E) session_id message])%list in
  run_agent_sync E message agent_key session_id t
  = (Ok (scan (run_async E t1)), (t1 ++ [call_asyncio_run_teardown])%list).
Proof.
  intros HE Hfind t1.
  unfold run_agent_sync, try_except, asyncio_run, try_finally,
    _send_and_get_final_response_async, make_runner_for, AGENTS_getitem.
  rewrite Hfind. unfold bind, ext, ret. rewrite !HE.
  subst t1. now rewrite <- !app_assoc.
Qed.

Lemma register_session_faultless (E : env) (agent_choice session_id : string)
    (t : trace) (p : string * string) :
  faultless E ->
  find (fun p => String.eqb (fst p) agent_choice) (AGENTS E) = Some p ->
  register_session E agent_choice session_id t
  = (Ok tt,
     (t ++ [call_make_runner_for (snd p); call_new_event_loop;
            call_run_until_complete;
            call_create_session (APP_NAME E) (USER_ID E) session_id;
            call_run_until_complete; call_shutdown_asyncgens;
            call_loop_close])%list).
Proof.
  intros HE Hfind.
  unfold register_session, register_session_try, except_Exception_pass,
    try_except, try_finally, run_until_complete, close_loop,
    except_Exception_pass, try_except, run_until_complete,
    make_runner_for, AGENTS_getitem.
  rewrite Hfind. unfold bind, ext, ret. rewrite !HE.
  now rewrite <- !app_assoc.
Qed.

(** When no call fails and [AGENTS] holds the key, a turn without a usable
    marker makes exactly these calls in this order: it draws a uuid,
    registers the minted id with the session store on a loop it closes, and
    dispatches the message once, to that same id; the reply is what line
    35-42 read from the stream of that dispatch. *)
Theorem faultless_new_session_turn (E : env) (message : string) (history : pyval)
    (agent_choice : string) (t : trace) (p : string * string) :
  faultless E ->
  find (fun p => String.eqb (fst p) agent_choice) (AGENTS E) = Some p ->
  history = PyNone \/ (exists l, history = PyList l) ->
  not_session_id (fst (decode history)) = true ->
  let sid := mint_session_id (urandom E (t ++ [call_uuid4])%list) in
  let t1 := (t ++ [call_uuid4; call_make_runner_for (snd p); call_new_event_loop;
                   call_run_until_complete;
                   call_create_session (APP_NAME E) (USER_ID E) sid;
                   call_run_until_complete; call_shutdown_asyncgens;
                   call_loop_close;
                   call_asyncio_run; call_make_runner_for (snd p);
                   call_run_async (snd p) (USER_ID E) sid message])%list in
  chat_fn E message history agent_choice t
  = (Ok (scan (run_async E t1)), (t1 ++ [call_asyncio_run_teardown])%list).
Proof.
  intros HE Hfind Hk Hn sid t1.
  destruct (resolve_new_session E history agent_choice t Hn) as (t2 & Hreg & Hr).
  fold sid in Hreg, Hr.
  rewrite (register_session_faultless agent_choice sid _ HE Hfind) in Hreg.
  injection Hreg as <-.
  assert (Hc : exists r, resolve E history agent_choice t
                         = (Ok r, (t ++ [call_uuid4]) ++
                                  [call_make_runner_for (snd p); call_new_event_loop;
                                   call_run_until_complete;
                                   call_create_session (APP_NAME E) (USER_ID E) sid;
                                   call_run_until_complete; call_shutdown_asyncgens;
                                   call_loop_close])%list
                    /\ session_id_of r = sid).
  { destruct (decode_keeps_kind Hk) as [Hh | [l Hh]]; rewrite Hh in Hr;
      cbn [prepend_marker py_iter] in Hr; eexists; (split; [exact Hr|]);
      reflexivity. }
  destruct Hc as (r & Hres & Hsid).
  rewrite (@chat_fn_after_resolve E message _ _ _ _ _ Hres), Hsid.
  rewrite (run_agent_sync_faultless message agent_choice sid _ HE Hfind).
  subst t1. now rewrite <- !app_assoc.
Qed.

Lemma quiet_env_faultless : faultless quiet_env.
Proof. intros t c. reflexivity. Qed.

Lemma faultless_new_session_turn_witness :
  chat_fn quiet_env "Hello" (PyList [PyTuple [PyStr "__SID__:"; PyStr ""]]) "triage" []
  = (Ok (PyStr "(no response)"),
     [call_uuid4; call_make_runner_for "triage_agent"; call_new_event_loop;
      call_run_until_complete;
      call_create_session "mediflow" "visitor"
                          "session-00000000-0000-4000-8000-000000000000";
      call_run_until_complete; call_shutdown_asyncgens; call_loop_close;
      call_asyncio_run; call_make_runner_for "triage_agent";
      call_run_async "triage_agent" "visitor"
                     "session-00000000-0000-4000-8000-000000000000" "Hello";
      call_asyncio_run_teardown]).
Proof.
  apply (@faultless_new_session_turn quiet_env "Hello"
           (PyList [PyTuple [PyStr "__SID__:"; PyStr ""]]) "triage" []
           ("triage", "triage_agent")).
  - exact quiet_env_faultless.
  - reflexivity.
  - right. eexists. reflexivity.
  - reflexivity.
Defined.

(** When no call fails and [AGENTS] holds the key, a turn whose history
    starts with the marker of a non-empty id makes four calls: [asyncio.run]
    starts, the runner is built, the message is dispatched once to the
    marker's id, and [asyncio.run] ends; the reply is read from the stream
    of that dispatch. *)
Theorem faultless_reuse_turn (E : env) (message sid : string) (H : list pyval)
    (agent_choice : string) (t : trace) (p : string * string) :
  faultless E ->
  find (fun p => String.eqb (fst p) agent_choice) (AGENTS E) = Some p ->
  sid <> "" ->
  let t1 := (t ++ [call_asyncio_run; call_make_runner_for (snd p);
                   call_run_async (snd p) (USER_ID E) sid message])%list in
  chat_fn E message (PyList (encode sid :: H)) agent_choice t
  = (Ok (scan (run_async E t1)), (t1 ++ [call_asyncio_run_teardown])%list).
Proof.
  intros HE Hfind Hsid t1.
  rewrite (@chat_fn_after_resolve E message _ _ _ _ _
             (resolve_marker E H agent_choice t Hsid)).
  cbn [session_id_of].
  apply (run_agent_sync_faultless message agent_choice sid t HE Hfind).
Qed.

Lemma faultless_reuse_turn_witness :
  chat_fn quiet_env "Again" (PyList [encode "session-abc123"]) "triage" []
  = (Ok (PyStr "(no response)"),
     [call_asyncio_run; call_make_runner_for "triage_agent";
      call_run_async "triage_agent" "visitor" "session-abc123" "Again";
      call_asyncio_run_teardown]).
Proof.
  apply (@faultless_reuse_turn quiet_env "Again" "session-abc123" [] "triage" []
           ("triage", "triage_agent")).
  - exact quiet_env_faultless.
  - reflexivity.
  - discriminate.
Defined.

(** * Beyond the claims: fresh ids *)

Lemma hex_value_digit (d : Z) : 0 <= d < 16 -> hex_value (hex_digit d) = d.
Proof.
  intros Hd.
  assert (H : d = 0 \/ d = 1 \/ d = 2 \/ d = 3 \/ d = 4 \/ d = 5 \/ d = 6 \/ d = 7
              \/ d = 8 \/ d = 9 \/ d = 10 \/ d = 11 \/ d = 12 \/ d = 13 \/ d = 14
              \/ d = 15) by lia.
  repeat (destruct H as [-> | H]; [reflexivity|]). now subst.
Qed.

Lemma uuid4_int_range (r : Z) : 0 <= uuid4_int r < 2 ^ 128.
Proof.
  assert (Hr : 0 <= r mod 2 ^ 128 < 2 ^ 128) by (apply Z.mod_pos_bound; lia).
  assert (Hnn : 0 <= uuid4_int r).
  { unfold uuid4_int. apply Z.lor_nonneg. split; [|cbn; lia].
    apply Z.land_nonneg. left. apply Z.lor_nonneg. split; [|cbn; lia].
    apply Z.land_nonneg. now left. }
  split; [exact Hnn|].
  enough (Z.land (uuid4_int r) (Z.ones 128) = uuid4_int r) as Heq.
  { rewrite <- Heq. rewrite Z.land_ones by lia. apply Z.mod_pos_bound. lia. }
  apply Z.bits_inj'. intros n Hn. rewrite Z.land_spec.
  destruct (Z.ltb_spec n 128) as [Hlt | Hge].
  - rewrite Z.ones_spec_low by lia. apply andb_true_r.
  - rewrite Z.ones_spec_high by lia. rewrite andb_false_r. symmetry.
    unfold uuid4_int. cbv zeta.
    repeat (rewrite Z.lor_spec || rewrite Z.land_spec).
    rewrite Z.mod_pow2_bits_high by lia.
    rewrite (Z.bits_above_log2 (Z.shiftl 32768 48)) by (cbn; lia).
    rewrite (Z.bits_above_log2 (Z.shiftl 4 76)) by (cbn; lia).
    reflexivity.
Qed.

Lemma from_nibbles_mod (i : Z) (n : nat) : from_nibbles i n = i mod 16 ^ Z.of_nat n.
Proof.
  induction n as [|k IH].
  - cbn. now rewrite Z.mod_1_r.
  - cbn [from_nibbles]. rewrite IH. unfold nibble.
    rewrite Z.shiftr_div_pow2 by lia.
    replace (2 ^ (4 * Z.of_nat k)) with (16 ^ Z.of_nat k)
      by (change 16 with (2 ^ 4); rewrite <- Z.pow_mul_r by lia; reflexivity).
    rewrite Nat2Z.inj_succ, Z.pow_succ_r by lia.
    rewrite (Z.mul_comm 16), Z.rem_mul_r by lia. reflexivity.
Qed.

Lemma from_nibbles_ext (a b : Z) (n : nat) :
  (forall k, (k < n)%nat -> nibble a k = nibble b k) ->
  from_nibbles a n = from_nibbles b n.
Proof.
  induction n as [|k IH]; intros H; [reflexivity|].
  cbn [from_nibbles]. rewrite IH, (H k) by (intros; try apply H; lia). reflexivity.
Qed.

Lemma uuid_format_digits (f g : nat -> ascii) :
  uuid_format (map f (rev (seq 0 32))) = uuid_format (map g (rev (seq 0 32))) ->
  forall k, (k < 32)%nat -> f k = g k.
Proof.
  intros H. cbn in H. injection H. intros.
  do 32 (destruct k as [|k]; [assumption|]). lia.
Qed.

Lemma uuid_str_inj (a b : Z) :
  0 <= a < 2 ^ 128 -> 0 <= b < 2 ^ 128 -> uuid_str a = uuid_str b -> a = b.
Proof.
  intros Ha Hb H. unfold uuid_str, hex32 in H.
  assert (Hn : forall k, (k < 32)%nat -> nibble a k = nibble b k).
  { intros k Hk.
    pose proof (@uuid_format_digits _ _ H k Hk) as Hd. cbv beta in Hd.
    apply (f_equal hex_value) in Hd.
    rewrite !hex_value_digit in Hd by (apply Z.mod_pos_bound; lia).
    exact Hd. }
  apply from_nibbles_ext in Hn. rewrite !from_nibbles_mod in Hn.
  change (16 ^ Z.of_nat 32) with (2 ^ 128) in Hn.
  now rewrite !Z.mod_small in Hn by assumption.
Qed.

Lemma string_app_inv_head (p s s' : string) : p ++ s = p ++ s' -> s = s'.
Proof. induction p as [|c p IH]; cbn; intros H; [assumption|]. injection H. auto. Qed.

(** Two minted ids are equal exactly when the two uuids are: the text of a
    uuid determines each of its 128 bits, so distinct uuids never share a
    session id. *)
Theorem minted_ids_differ (r1 r2 : Z) :
  mint_session_id r1 = mint_session_id r2 <-> uuid4_int r1 = uuid4_int r2.
Proof.
  split.
  - intros H. unfold mint_session_id in H. apply string_app_inv_head in H.
    apply uuid_str_inj; auto using uuid4_int_range.
  - intros H. unfold mint_session_id. now rewrite H.
Qed.

(** A marker whose id is empty is stripped like any marker, and since its id
    does not count as a session a new id is minted and registered: the
    history built for the client carries the new marker in place of the old
    one, followed by the other entries. *)
Theorem empty_marker_is_replaced (E : env) (H : list pyval) (agent_choice : string)
    (t : trace) :
  let sid := mint_session_id (urandom E (t ++ [call_uuid4])%list) in
  exists t1,
    resolve E (PyList (encode "" :: H)) agent_choice t
    = (Ok (mkResolved sid (PyList H) (PyList (encode sid :: H))), t1).
Proof.
  intros sid.
  assert (Hd : decode (PyList (encode "" :: H)) = (Some "", PyList H))
    by apply (decode_marker_tuple "" [PyStr ""] H).
  destruct (@resolve_new_session E (PyList (encode "" :: H)) agent_choice t)
    as (t1 & _ & Hr).
  - now rewrite Hd.
  - exists t1. rewrite Hd in Hr. exact Hr.
Qed.
